(** * Moltbook identity verification middleware

    A shallow embedding of [middleware/moltbook-auth.js] and of the class
    [MoltbookAuthMiddleware] of [moltbook-auth.types.ts], with the
    properties of the specification stated over it.

    The two source files hold the same logic twice: once as plain functions
    that read their configuration from [process.env], once as a class that
    receives it in its constructor. Both are embedded, over one model of the
    JavaScript values and effects they use. *)

From Stdlib Require Import ZArith Ascii DecimalString.
From stdpp Require Import base strings list gmap.

Local Open Scope string_scope.
Local Open Scope Z_scope.

Local Set Warnings "-register-all".

(** ** JavaScript values *)

(** What [JSON.parse] (and so [response.json()]) can produce. Numbers are
    kept to the integers of magnitude below 10^21, which are the ones that
    ToString prints in plain decimal digits; an object is the list of its own
    properties, each name once. *)
Inductive json : Type :=
| JNull
| JBool (b : bool)
| JNum (n : Z)
| JStr (s : string)
| JArr (items : list json)
| JObj (props : list (string * json)).

(** The objects of the runtime that an ordinary object reaches through its
    prototype chain. *)
Inductive builtin : Type :=
| BObject                      (* the constructor [Object] *)
| BObjectPrototype             (* [Object.prototype] *)
| BMethod (name : string).     (* the function [Object.prototype.<name>] *)

Inductive value : Type :=
| VUndefined
| VJson (j : json)
| VBuiltin (b : builtin).

Coercion VJson : json >-> value.

Definition num (n : Z) : value := VJson (JNum n).
Definition str (s : string) : value := VJson (JStr s).

(** [process.env.X] and optional string fields: a string or [undefined]. *)
Definition of_option (o : option string) : value :=
  match o with
  | Some s => str s
  | None => VUndefined
  end.

(** [v === undefined || v === null], the test behind [?.]. *)
Definition is_nullish (v : value) : bool :=
  match v with
  | VUndefined | VJson JNull => true
  | _ => false
  end.

(** ToBoolean. *)
Definition truthy (v : value) : bool :=
  match v with
  | VUndefined => false
  | VJson JNull => false
  | VJson (JBool b) => b
  | VJson (JNum n) => negb (n =? 0)
  | VJson (JStr s) => negb (String.eqb s "")
  | VJson (JArr _) => true
  | VJson (JObj _) => true
  | VBuiltin _ => true
  end.

(** The operator [a || b]. *)
Definition js_or (a b : value) : value := if truthy a then a else b.

(** [a || d] where [a] is a string or [undefined] and [d] a string. *)
Definition or_string (a : option string) (d : string) : string :=
  match a with
  | Some s => if String.eqb s "" then d else s
  | None => d
  end.

(** ** Exceptions

    A computation returns a value or throws; for an [async] function the two
    are a promise fulfilled and a promise rejected. *)

Inductive exn : Type :=
| JsError (class message : string).

Inductive outcome (A : Type) : Type :=
| Return (a : A)
| Throw (e : exn).
Arguments Return {A} a.
Arguments Throw {A} e.

Global Instance outcome_ret : MRet outcome := λ A a, Return a.
Global Instance outcome_bind : MBind outcome := λ A B f o,
  match o with
  | Return a => f a
  | Throw e => Throw e
  end.

Definition cannot_convert : exn :=
  JsError "TypeError" "Cannot convert object to primitive value".

(** ToString, as used for property keys and in template literals. An object
    is converted by its [toString]: the inherited one prints
    ["[object Object]"]; an own property of that name, which in parsed JSON
    is never a function, hides it, and the conversion then throws (the
    inherited [valueOf] returns the object itself). An array is joined, each
    element converted in turn. *)
Fixpoint json_to_string (j : json) : outcome string :=
  match j with
  | JNull => Return "null"
  | JBool true => Return "true"
  | JBool false => Return "false"
  | JNum n => Return (NilZero.string_of_int (Z.to_int n))
  | JStr s => Return s
  | JArr items =>
      (* Array.prototype.join: null elements print as the empty string *)
      let elem x := match x with JNull => Return "" | _ => json_to_string x end in
      (fix join (xs : list json) : outcome string :=
         match xs with
         | [] => Return ""
         | [x] => elem x
         | x :: rest =>
             match elem x with
             | Return s =>
                 match join rest with
                 | Return t => Return (s +:+ "," +:+ t)
                 | Throw e => Throw e
                 end
             | Throw e => Throw e
             end
         end) items
  | JObj props =>
      match (list_to_map props : gmap string json) !! "toString" with
      | Some _ => Throw cannot_convert
      | None => Return "[object Object]"
      end
  end.

Definition to_string (v : value) : outcome string :=
  match v with
  | VUndefined => Return "undefined"
  | VJson j => json_to_string j
  | VBuiltin BObject => Return "function Object() { [native code] }"
  | VBuiltin BObjectPrototype => Return "[object Object]"
  | VBuiltin (BMethod name) => Return ("function " +:+ name +:+ "() { [native code] }")
  end.

(** ** Objects and property lookup *)

(** The properties every object literal inherits from [Object.prototype]. *)
Definition Object_prototype : gmap string value :=
  list_to_map
    [ ("constructor", VBuiltin BObject);
      ("__defineGetter__", VBuiltin (BMethod "__defineGetter__"));
      ("__defineSetter__", VBuiltin (BMethod "__defineSetter__"));
      ("hasOwnProperty", VBuiltin (BMethod "hasOwnProperty"));
      ("__lookupGetter__", VBuiltin (BMethod "__lookupGetter__"));
      ("__lookupSetter__", VBuiltin (BMethod "__lookupSetter__"));
      ("isPrototypeOf", VBuiltin (BMethod "isPrototypeOf"));
      ("propertyIsEnumerable", VBuiltin (BMethod "propertyIsEnumerable"));
      ("toString", VBuiltin (BMethod "toString"));
      ("valueOf", VBuiltin (BMethod "valueOf"));
      ("__proto__", VBuiltin BObjectPrototype);
      ("toLocaleString", VBuiltin (BMethod "toLocaleString")) ].

(** [o[k]] for an ordinary object [o] with own properties [own] and a
    string [k]: the own properties are searched first, then the prototype; a
    property found nowhere reads as [undefined]. *)
Definition object_get {A} (inject : A → value) (own : gmap string A) (k : string) : value :=
  match own !! k with
  | Some x => inject x
  | None => default VUndefined (Object_prototype !! k)
  end.

(** [o[key]] for an object literal [o]: the key is first converted to a
    string, which can throw. *)
Definition literal_get (own : gmap string value) (key : value) : outcome value :=
  k ← to_string key;
  Return (object_get id own k).

(** ** The tables of moltbook-auth.js *)

Definition statusMap : gmap string value :=
  list_to_map
    [ ("identity_token_expired", num 401);
      ("invalid_token", num 401);
      ("agent_not_found", num 404);
      ("agent_deactivated", num 403);
      ("audience_required", num 401);
      ("audience_mismatch", num 401);
      ("rate_limit_exceeded", num 429);
      ("missing_app_key", num 401);
      ("invalid_app_key", num 401) ].

Definition getStatusCodeForError (error : value) : outcome value :=
  found ← literal_get statusMap error;
  Return (js_or found (num 401)).

Definition hints : gmap string value :=
  list_to_map
    [ ("identity_token_expired",
       str "Your identity token has expired. Request a new token from Moltbook and try again.");
      ("invalid_token", str "The identity token is malformed or has been tampered with.");
      ("agent_not_found", str "The agent associated with this token no longer exists.");
      ("agent_deactivated", str "This agent has been deactivated or banned.");
      ("audience_required", str "This token requires audience verification.");
      ("audience_mismatch", str "This token was issued for a different service.");
      ("rate_limit_exceeded", str "Too many verification requests. Please wait and try again.");
      ("missing_app_key", str "The server is not configured with a Moltbook app key.");
      ("invalid_app_key", str "The server's Moltbook app key is invalid or has been revoked.") ].

Definition getErrorHint (error : value) : outcome value :=
  found ← literal_get hints error;
  Return (js_or found (str "Identity verification failed.")).

(** ** Effects

    One run of a verifier is a computation over the things it can touch:
    the request and response objects handed over by the host, the [next]
    callback, the network behind [fetch], and the console. An [async]
    function that returns is [Return]; one whose promise rejects is
    [Throw]. *)

(** A header of an incoming request: [string | string[]]. *)
Inductive header_value : Type :=
| HString (s : string)
| HArray (items : list string).

Definition header_to_value (h : option header_value) : value :=
  match h with
  | None => VUndefined
  | Some (HString s) => str s
  | Some (HArray items) => VJson (JArr (JStr <$> items))
  end.

Record fetch_request : Type := {
  url : string;
  method : string;
  headers : list (string * value);
  body : json
}.

(** What comes back from [fetch]: the promise rejects (no connection, timeout,
    abort), or it gives a response whose [json()] in turn rejects (the body is
    not JSON) or gives the parsed body. *)
Record response : Type := {
  json_result : exn + json
}.

Inductive log_entry : Type :=
| ConsoleLog (message : string)
| ConsoleError (message : string) (cause : option exn).

(** What one run can read and change.

    The request, the response and [next] belong to the host. The header map
    is an ordinary object: [req_headers] holds its own entries, and a read
    that finds none goes on to [Object.prototype]. The
    response records what it is told: [res.status(code)] keeps [code]
    whatever it is, [res.json(body)] sends [body] under the status then in
    force. Neither of them, nor [next()] or the console, raises. *)
Record world : Type := {
  req_headers : gmap string header_value;
  req_moltbookAgent : option value;       (* [None]: the property was never assigned *)
  res_statusCode : value;
  res_sent : list (value * list (string * value));
                                          (* every [res.json(body)], with the status in force *)
  next_calls : nat;
  remote : fetch_request → exn + response;
  fetched : list fetch_request;           (* every call of [fetch], oldest first *)
  console : list log_entry
}.

(** The world as the host hands it to the middleware. *)
Definition fresh (hs : gmap string header_value)
    (r : fetch_request → exn + response) : world :=
  {| req_headers := hs; req_moltbookAgent := None;
     res_statusCode := num 200; res_sent := [];
     next_calls := 0; remote := r; fetched := []; console := [] |}.

Definition M (A : Type) : Type := world → outcome A * world.

Global Instance M_ret : MRet M := λ A a w, (Return a, w).
Global Instance M_bind : MBind M := λ A B f m w,
  match m w with
  | (Return a, w') => f a w'
  | (Throw e, w') => (Throw e, w')
  end.

Global Instance M_fmap : FMap M := λ A B f m w,
  match m w with
  | (Return a, w') => (Return (f a), w')
  | (Throw e, w') => (Throw e, w')
  end.

Definition throw {A} (e : exn) : M A := λ w, (Throw e, w).

(** [try { body } catch (error) { handler }] *)
Definition try_catch {A} (body : M A) (handler : exn → M A) : M A := λ w,
  match body w with
  | (Return a, w') => (Return a, w')
  | (Throw e, w') => handler e w'
  end.

Definition lift {A} (o : outcome A) : M A := λ w, (o, w).

Definition set_req_moltbookAgent (a : option value) (w : world) : world :=
  {| req_headers := req_headers w; req_moltbookAgent := a;
     res_statusCode := res_statusCode w; res_sent := res_sent w;
     next_calls := next_calls w; remote := remote w; fetched := fetched w;
     console := console w |}.

Definition set_res_statusCode (c : value) (w : world) : world :=
  {| req_headers := req_headers w; req_moltbookAgent := req_moltbookAgent w;
     res_statusCode := c; res_sent := res_sent w;
     next_calls := next_calls w; remote := remote w; fetched := fetched w;
     console := console w |}.

Definition set_res_sent (l : list (value * list (string * value))) (w : world) : world :=
  {| req_headers := req_headers w; req_moltbookAgent := req_moltbookAgent w;
     res_statusCode := res_statusCode w; res_sent := l;
     next_calls := next_calls w; remote := remote w; fetched := fetched w;
     console := console w |}.

Definition set_next_calls (n : nat) (w : world) : world :=
  {| req_headers := req_headers w; req_moltbookAgent := req_moltbookAgent w;
     res_statusCode := res_statusCode w; res_sent := res_sent w;
     next_calls := n; remote := remote w; fetched := fetched w;
     console := console w |}.

Definition set_fetched (l : list fetch_request) (w : world) : world :=
  {| req_headers := req_headers w; req_moltbookAgent := req_moltbookAgent w;
     res_statusCode := res_statusCode w; res_sent := res_sent w;
     next_calls := next_calls w; remote := remote w; fetched := l;
     console := console w |}.

Definition set_console (l : list log_entry) (w : world) : world :=
  {| req_headers := req_headers w; req_moltbookAgent := req_moltbookAgent w;
     res_statusCode := res_statusCode w; res_sent := res_sent w;
     next_calls := next_calls w; remote := remote w; fetched := fetched w;
     console := l |}.

(** [headers[name]] for the header map with own entries [hs]. *)
Definition headers_get (hs : gmap string header_value) (name : string) : value :=
  object_get (λ h, header_to_value (Some h)) hs name.

(** [req.headers[name]] *)
Definition req_header (name : string) : M value := λ w,
  (Return (headers_get (req_headers w) name), w).

(** [req.moltbookAgent = a] *)
Definition assign_moltbookAgent (a : value) : M unit := λ w,
  (Return (), set_req_moltbookAgent (Some a) w).

(** [res.status(code)] *)
Definition res_status (code : value) : M unit := λ w,
  (Return (), set_res_statusCode code w).

(** [res.json(body)] *)
Definition res_json (body : list (string * value)) : M unit := λ w,
  (Return (), set_res_sent (res_sent w ++ [(res_statusCode w, body)]) w).

(** [next()] *)
Definition next : M unit := λ w,
  (Return (), set_next_calls (S (next_calls w)) w).

Definition console_log (message : string) : M unit := λ w,
  (Return (), set_console (console w ++ [ConsoleLog message]) w).

Definition console_error (message : string) (cause : option exn) : M unit := λ w,
  (Return (), set_console (console w ++ [ConsoleError message cause]) w).

(** [await fetch(url, init)] *)
Definition fetch (r : fetch_request) : M response := λ w,
  let w' := set_fetched (fetched w ++ [r]) w in
  match remote w r with
  | inl e => (Throw e, w')
  | inr resp => (Return resp, w')
  end.

(** [await response.json()] *)
Definition response_json (resp : response) : M json :=
  match json_result resp with
  | inl e => throw e
  | inr data => mret data
  end.

(** [JSON.stringify] of an object literal, given as the JSON document that
    the text denotes: properties holding [undefined] or a function are left
    out. *)
Definition JSON_stringify (props : list (string * value)) : json :=
  JObj (omap (λ p : string * value,
                match p.2 with
                | VUndefined => None
                | VJson j => Some (p.1, j)
                | VBuiltin BObjectPrototype => Some (p.1, JObj [])
                | VBuiltin _ => None
                end) props).

(** *** Reading a property with [.]

    The program reads five property names with the dot operator, all on the
    remote response or on its [agent]. *)
Inductive field : Type := f_valid | f_error | f_agent | f_name | f_karma.

Definition field_name (f : field) : string :=
  match f with
  | f_valid => "valid"
  | f_error => "error"
  | f_agent => "agent"
  | f_name => "name"
  | f_karma => "karma"
  end.

Definition null_deref {A} (what : string) (f : field) : outcome A :=
  Throw (JsError "TypeError"
           ("Cannot read properties of " +:+ what +:+ " (reading '" +:+ field_name f +:+ "')")).

(** [v.f]: a [TypeError] on [undefined] and [null]; the own property, then
    the prototype, on an object; on the other values [undefined], none of the
    five names being defined on a primitive's wrapper or on an array. A
    built-in function has a [name] of its own. *)
Definition get_field (v : value) (f : field) : outcome value :=
  match v with
  | VUndefined => null_deref "undefined" f
  | VJson JNull => null_deref "null" f
  | VJson (JObj props) =>
      match (list_to_map props : gmap string json) !! field_name f with
      | Some j => Return (VJson j)
      | None => Return (default VUndefined (Object_prototype !! field_name f))
      end
  | VJson _ => Return VUndefined
  | VBuiltin b =>
      match f, b with
      | f_name, BObject => Return (str "Object")
      | f_name, BMethod n => Return (str n)
      | _, _ => Return VUndefined
      end
  end.

Definition get (v : value) (f : field) : M value := lift (get_field v f).

(** ** middleware/moltbook-auth.js *)

Section moltbook_auth_js.

(** [process.env], read once when the module is loaded. *)
Variable process_env : gmap string string.

Definition MOLTBOOK_APP_KEY : option string :=
  process_env !! "MOLTBOOK_APP_KEY".

Definition MOLTBOOK_VERIFY_ENDPOINT : string :=
  "https://moltbook.com/api/v1/agents/verify-identity".

Definition MY_DOMAIN : string :=
  or_string (process_env !! "MOLTBOOK_AUDIENCE") "default".

Definition verifyMoltbookIdentity : M unit :=
  identityToken ← req_header "x-moltbook-identity";
  if negb (truthy identityToken) then
    res_status (num 401);;
    res_json [ ("error", str "Missing identity token");
               ("hint", str "Include X-Moltbook-Identity header with your identity token") ]
  else if negb (truthy (of_option MOLTBOOK_APP_KEY)) then
    console_error "MOLTBOOK_APP_KEY environment variable not set" None;;
    res_status (num 500);;
    res_json [ ("error", str "Server configuration error");
               ("hint", str "MOLTBOOK_APP_KEY is not configured") ]
  else
    try_catch
      (response ← fetch {| url := MOLTBOOK_VERIFY_ENDPOINT;
                           method := "POST";
                           headers := [ ("Content-Type", str "application/json");
                                        ("X-Moltbook-App-Key", of_option MOLTBOOK_APP_KEY) ];
                           body := JSON_stringify [ ("token", identityToken);
                                                    ("audience", str MY_DOMAIN) ] |};
       data ← VJson <$> response_json response;
       valid ← get data f_valid;
       if negb (truthy valid) then
         code ← get data f_error;
         statusCode ← lift (getStatusCodeForError code);
         res_status statusCode;;
         error ← get data f_error;
         code' ← get data f_error;
         hint ← lift (getErrorHint code');
         res_json [ ("error", error); ("hint", hint) ]
       else
         agent ← get data f_agent;
         assign_moltbookAgent agent;;
         (* the template literal: each value is read, then converted *)
         agent1 ← get data f_agent;
         name ← get agent1 f_name;
         name' ← lift (to_string name);
         agent2 ← get data f_agent;
         karma ← get agent2 f_karma;
         karma' ← lift (to_string karma);
         console_log ("[Moltbook] Verified agent: " +:+ name'
                        +:+ " (karma: " +:+ karma' +:+ ")");;
         next)
      (λ error,
         console_error "[Moltbook] Verification error:" (Some error);;
         res_status (num 500);;
         res_json [ ("error", str "Failed to verify identity");
                    ("hint", str "An error occurred while verifying your identity. Please try again.") ]).

Definition verifyIdentityToken (identityToken : value) : M value :=
  if negb (truthy (of_option MOLTBOOK_APP_KEY)) then
    throw (JsError "Error" "MOLTBOOK_APP_KEY environment variable is not set")
  else
    response ← fetch {| url := MOLTBOOK_VERIFY_ENDPOINT;
                        method := "POST";
                        headers := [ ("Content-Type", str "application/json");
                                     ("X-Moltbook-App-Key", of_option MOLTBOOK_APP_KEY) ];
                        body := JSON_stringify [ ("token", identityToken);
                                                 ("audience", str MY_DOMAIN) ] |};
    VJson <$> response_json response.

End moltbook_auth_js.

(** ** moltbook-auth.types.ts *)

Module MoltbookAuthMiddleware.

(** [MoltbookAuthConfig]. The type asks for a string [apiKey]; the usage
    shown in the file passes [process.env.MOLTBOOK_APP_KEY!], which is
    [undefined] at run time when the variable is not set. *)
Record MoltbookAuthConfig : Type := {
  config_apiKey : option string;
  config_audience : option string;
  config_verifyEndpoint : option string;
  config_headerName : option string
}.

(** The private fields of an instance. *)
Record t : Type := {
  apiKey : option string;
  audience : string;
  verifyEndpoint : string;
  headerName : string
}.

Definition constructor (config : MoltbookAuthConfig) : t :=
  {| apiKey := config_apiKey config;
     audience := or_string (config_audience config) "default";
     verifyEndpoint := or_string (config_verifyEndpoint config)
                         "https://moltbook.com/api/v1/agents/verify-identity";
     headerName := or_string (config_headerName config) "x-moltbook-identity" |}.

Definition statusMap : gmap string value :=
  list_to_map
    [ ("identity_token_expired", num 401);
      ("invalid_token", num 401);
      ("agent_not_found", num 404);
      ("agent_deactivated", num 403);
      ("audience_required", num 401);
      ("audience_mismatch", num 401);
      ("rate_limit_exceeded", num 429);
      ("missing_app_key", num 401);
      ("invalid_app_key", num 401) ].

Definition getStatusCodeForError (error : value) : outcome value :=
  found ← literal_get statusMap error;
  Return (js_or found (num 401)).

Definition hints : gmap string value :=
  list_to_map
    [ ("identity_token_expired",
       str "Your identity token has expired. Request a new token from Moltbook and try again.");
      ("invalid_token", str "The identity token is malformed or has been tampered with.");
      ("agent_not_found", str "The agent associated with this token no longer exists.");
      ("agent_deactivated", str "This agent has been deactivated or banned.");
      ("audience_required", str "This token requires audience verification.");
      ("audience_mismatch", str "This token was issued for a different service.");
      ("rate_limit_exceeded", str "Too many verification requests. Please wait and try again.");
      ("missing_app_key", str "The server is not configured with a Moltbook app key.");
      ("invalid_app_key", str "The server's Moltbook app key is invalid or has been revoked.") ].

Definition getErrorHint (error : value) : outcome value :=
  found ← literal_get hints error;
  Return (js_or found (str "Identity verification failed.")).

(** [typeof identityToken === 'string' ? identityToken : identityToken[0]].
    The index [0] of an array is its first element, of an object its
    property ["0"], of any other value that is not [undefined] or [null]
    nothing. *)
Definition first_token (identityToken : value) : outcome value :=
  match identityToken with
  | VJson (JStr s) => Return identityToken
  | VUndefined =>
      Throw (JsError "TypeError" "Cannot read properties of undefined (reading '0')")
  | VJson JNull =>
      Throw (JsError "TypeError" "Cannot read properties of null (reading '0')")
  | VJson (JArr items) => Return (from_option VJson VUndefined (head items))
  | VJson (JObj props) => Return (object_get VJson (list_to_map props) "0")
  | VJson (JBool _) | VJson (JNum _) | VBuiltin _ => Return VUndefined
  end.

Definition verify (this : t) : M unit :=
  identityToken ← req_header (headerName this);
  if negb (truthy identityToken) then
    res_status (num 401);;
    res_json [ ("error", str "Missing identity token");
               ("hint", str ("Include " +:+ headerName this
                               +:+ " header with your identity token")) ]
  else if negb (truthy (of_option (apiKey this))) then
    console_error "MOLTBOOK_APP_KEY environment variable not set" None;;
    res_status (num 500);;
    res_json [ ("error", str "Server configuration error");
               ("hint", str "MOLTBOOK_APP_KEY is not configured") ]
  else
    try_catch
      (token ← lift (first_token identityToken);
       response ← fetch {| url := verifyEndpoint this;
                           method := "POST";
                           headers := [ ("Content-Type", str "application/json");
                                        ("X-Moltbook-App-Key", of_option (apiKey this)) ];
                           body := JSON_stringify [ ("token", token);
                                                    ("audience", str (audience this)) ] |};
       data ← VJson <$> response_json response;
       valid ← get data f_valid;
       if negb (truthy valid) then
         code ← get data f_error;
         statusCode ← lift (getStatusCodeForError code);
         res_status statusCode;;
         error ← get data f_error;
         code' ← get data f_error;
         hint ← lift (getErrorHint code');
         res_json [ ("error", error); ("hint", hint) ]
       else
         agent ← get data f_agent;
         assign_moltbookAgent agent;;
         (* [data.agent?.name], [data.agent?.karma]: no read on a missing agent *)
         agent1 ← get data f_agent;
         name ← (if is_nullish agent1 then mret VUndefined else get agent1 f_name);
         name' ← lift (to_string name);
         agent2 ← get data f_agent;
         karma ← (if is_nullish agent2 then mret VUndefined else get agent2 f_karma);
         karma' ← lift (to_string karma);
         console_log ("[Moltbook] Verified agent: " +:+ name'
                        +:+ " (karma: " +:+ karma' +:+ ")");;
         next)
      (λ error,
         console_error "[Moltbook] Verification error:" (Some error);;
         res_status (num 500);;
         res_json [ ("error", str "Failed to verify identity");
                    ("hint", str "An error occurred while verifying your identity. Please try again.") ]).

Definition verifyToken (this : t) (identityToken : string) : M value :=
  if negb (truthy (of_option (apiKey this))) then
    throw (JsError "Error" "MOLTBOOK_APP_KEY environment variable is not set")
  else
    response ← fetch {| url := verifyEndpoint this;
                        method := "POST";
                        headers := [ ("Content-Type", str "application/json");
                                     ("X-Moltbook-App-Key", of_option (apiKey this)) ];
                        body := JSON_stringify [ ("token", str identityToken);
                                                 ("audience", str (audience this)) ] |};
    VJson <$> response_json response.

End MoltbookAuthMiddleware.

(** [createMoltbookMiddleware(config)]: the bound [verify] of a new instance. *)
Definition createMoltbookMiddleware
    (config : MoltbookAuthMiddleware.MoltbookAuthConfig) : M unit :=
  MoltbookAuthMiddleware.verify (MoltbookAuthMiddleware.constructor config).

(** ** The two verifiers side by side

    A verifier is either the plain module, configured by the environment it
    was loaded in, or an instance of the class, configured by the object
    given to its constructor. Each has a request-interception entry point
    and a standalone one. *)

Inductive verifier : Type :=
| Plain (process_env : gmap string string)
| Typed (config : MoltbookAuthMiddleware.MoltbookAuthConfig).

Definition verifyFromRequest (v : verifier) : M unit :=
  match v with
  | Plain process_env => verifyMoltbookIdentity process_env
  | Typed config => createMoltbookMiddleware config
  end.

Definition verifyStandalone (v : verifier) (token : string) : M value :=
  match v with
  | Plain process_env => verifyIdentityToken process_env (str token)
  | Typed config =>
      MoltbookAuthMiddleware.verifyToken (MoltbookAuthMiddleware.constructor config) token
  end.

(** The configuration as given, before any default is applied. *)
Definition configured_credential (v : verifier) : option string :=
  match v with
  | Plain process_env => process_env !! "MOLTBOOK_APP_KEY"
  | Typed config => MoltbookAuthMiddleware.config_apiKey config
  end.

Definition configured_audience (v : verifier) : option string :=
  match v with
  | Plain process_env => process_env !! "MOLTBOOK_AUDIENCE"
  | Typed config => MoltbookAuthMiddleware.config_audience config
  end.

(** The header name under which the verifier reads the token. *)
Definition header_name (v : verifier) : string :=
  match v with
  | Plain _ => "x-moltbook-identity"
  | Typed config =>
      MoltbookAuthMiddleware.headerName (MoltbookAuthMiddleware.constructor config)
  end.

(** A string setting that is unset or empty. *)
Definition unset (o : option string) : Prop := o = None ∨ o = Some "".

(** A header that is absent or empty. *)
Definition header_missing (hs : gmap string header_value) (name : string) : Prop :=
  hs !! name = None ∨ hs !! name = Some (HString "").

(** Remote behaviours: a remote that answers every request with the JSON
    body [data]. *)
Definition replies (data : json) : fetch_request → exn + response :=
  λ _, inr {| json_result := inr data |}.

(** A transport failure: [fetch] rejects, or the body does not parse. *)
Inductive transport_failure : exn + response → Prop :=
| fetch_rejects (e : exn) : transport_failure (inl e)
| body_rejects (e : exn) : transport_failure (inr {| json_result := inl e |}).

(** An own property of a JSON object. *)
Definition json_prop (j : json) (k : string) : option json :=
  match j with
  | JObj props => (list_to_map props : gmap string json) !! k
  | _ => None
  end.

(** The responses of the specification's failure classes. *)
Definition missing_token_body (hint : string) : list (string * value) :=
  [ ("error", str "Missing identity token"); ("hint", str hint) ].


Definition verification_failure_body : list (string * value) :=
  [ ("error", str "Failed to verify identity");
    ("hint", str "An error occurred while verifying your identity. Please try again.") ].

(** ** Statements and observations

    The vocabulary in which the properties below are stated: what counts as
    an outcome of a run, what a caller observes of it, and the statements
    of the specification that the code does not satisfy as they stand. *)


(** How a run can end: the function returns, and either one response was
    sent and [next] was not called, or [next] was called once and nothing
    was sent. *)
Definition ends_in_response (w : world) : Prop :=
  (∃ status body, res_sent w = [(status, body)]) ∧
  next_calls w = 0%nat.

Definition ends_in_continue (w : world) : Prop :=
  res_sent w = [] ∧ next_calls w = 1%nat ∧ ∃ a, req_moltbookAgent w = Some a.

(** The statement of C10 as the specification has it: after a failure
    response, [req.moltbookAgent] is absent or [undefined], and [next] was
    not called. *)
Definition failure_leaves_agent_undefined
    (v : verifier) (hs : gmap string header_value) (r : fetch_request → exn + response) : Prop :=
  res_sent (verifyFromRequest v (fresh hs r)).2 ≠ [] →
  (req_moltbookAgent (verifyFromRequest v (fresh hs r)).2 = None ∨
   req_moltbookAgent (verifyFromRequest v (fresh hs r)).2 = Some VUndefined) ∧
  next_calls (verifyFromRequest v (fresh hs r)).2 = 0%nat.

(** What the standalone entry point makes of the remote's answer: the
    transport's error is passed on, the parsed body is returned as it is. *)
Definition raw_reply (a : exn + response) : outcome value :=
  match a with
  | inl e => Throw e
  | inr resp =>
      match json_result resp with
      | inl e => Throw e
      | inr data => Return (VJson data)
      end
  end.

(** The request both entry points send for a token. *)
Definition outbound (v : verifier) (token : value) : fetch_request :=
  match v with
  | Plain process_env =>
      {| url := MOLTBOOK_VERIFY_ENDPOINT; method := "POST";
         headers := [ ("Content-Type", str "application/json");
                      ("X-Moltbook-App-Key", of_option (MOLTBOOK_APP_KEY process_env)) ];
         body := JSON_stringify [ ("token", token);
                                  ("audience", str (MY_DOMAIN process_env)) ] |}
  | Typed config =>
      let this := MoltbookAuthMiddleware.constructor config in
      {| url := MoltbookAuthMiddleware.verifyEndpoint this; method := "POST";
         headers := [ ("Content-Type", str "application/json");
                      ("X-Moltbook-App-Key", of_option (MoltbookAuthMiddleware.apiKey this)) ];
         body := JSON_stringify [ ("token", token);
                                  ("audience", str (MoltbookAuthMiddleware.audience this)) ] |}
  end.

(** The token a verifier makes of what it read under the header name. *)
Definition token_value (v : verifier) (identityToken : value) : value :=
  match v with
  | Plain _ => identityToken
  | Typed _ =>
      match MoltbookAuthMiddleware.first_token identityToken with
      | Return token => token
      | Throw _ => VUndefined
      end
  end.

(** A result that tells its caller nothing: [undefined], [null], or an
    object without properties. *)
Definition silent (x : value) : bool :=
  match x with
  | VUndefined | VJson JNull | VJson (JObj []) => true
  | _ => false
  end.

(** The statement of C6 as the specification has it: the request-interception
    entry point does not raise, and the standalone one either raises (its
    explicit failure signal) or returns a result that is not silent. *)
Definition never_faults_nor_silent
    (v : verifier) (token : string) (hs : gmap string header_value)
    (r : fetch_request → exn + response) : Prop :=
  (verifyFromRequest v (fresh hs r)).1 = Return () ∧
  match (verifyStandalone v token (fresh hs r)).1 with
  | Throw _ => True
  | Return x => silent x = false
  end.


Definition body_prop (body : list (string * value)) (k : string) : value :=
  default VUndefined ((list_to_map body : gmap string value) !! k).




(** ASCII lower-casing, the folding under which header names are compared
    on the wire. *)
Definition lower_ascii (c : ascii) : ascii :=
  let n := N_of_ascii c in
  if ((65 <=? n)%N && (n <=? 90)%N)%bool then ascii_of_N (n + 32) else c.

Fixpoint to_lower (s : string) : string :=
  match s with
  | EmptyString => EmptyString
  | String c rest => String (lower_ascii c) (to_lower rest)
  end.

(** What the host and the next stages can see of a run. *)
Definition observable (res : outcome unit * world) :=
  (res.1, req_moltbookAgent res.2, res_sent res.2, next_calls res.2, fetched res.2,
   console res.2).

(** The statement of C9 as the specification has it: a header map that holds
    the token under any casing of the configured name gives the same run as
    one that holds it under the configured name itself. *)
Definition header_lookup_ignores_case
    (v : verifier) (sent : string) (h : header_value)
    (r : fetch_request → exn + response) : Prop :=
  to_lower sent = to_lower (header_name v) →
  observable (verifyFromRequest v (fresh {[ sent := h ]} r))
  = observable (verifyFromRequest v (fresh {[ header_name v := h ]} r)).

(** ** Further vocabulary *)

(** The endpoint a verifier is configured with; the plain module has it
    fixed. *)
Definition configured_endpoint (v : verifier) : option string :=
  match v with
  | Plain _ => None
  | Typed config => MoltbookAuthMiddleware.config_verifyEndpoint config
  end.

(** The configuration of the usage example of moltbook-auth.types.ts:
    [new MoltbookAuthMiddleware({ apiKey: process.env.MOLTBOOK_APP_KEY!,
    audience: process.env.MOLTBOOK_AUDIENCE })]. *)
Definition config_of_env (process_env : gmap string string)
    : MoltbookAuthMiddleware.MoltbookAuthConfig :=
  {| MoltbookAuthMiddleware.config_apiKey := process_env !! "MOLTBOOK_APP_KEY";
     MoltbookAuthMiddleware.config_audience := process_env !! "MOLTBOOK_AUDIENCE";
     MoltbookAuthMiddleware.config_verifyEndpoint := None;
     MoltbookAuthMiddleware.config_headerName := None |}.

(** A value that a template literal can print. *)
Definition printable (x : value) : Prop := ∃ s, to_string x = Return s.

(** An agent whose [name] and [karma] the log line can print. *)
Definition loggable (A : value) : Prop :=
  ∃ name karma,
    get_field A f_name = Return name ∧ printable name ∧
    get_field A f_karma = Return karma ∧ printable karma.

(** The remote answers a request with a body that declares the token
    valid. *)
Definition declares_valid (answer : exn + response) : Prop :=
  ∃ (data : json) (valid : value),
    answer = inr {| json_result := inr data |} ∧
    get_field data f_valid = Return valid ∧ truthy valid = true.

(** The remote declared the token valid with an agent [A] on which the
    handler goes on to fail: [A] is [undefined] or [null], or the log line
    cannot print it. *)
Definition agent_left_behind (r : fetch_request → exn + response) (A : value) : Prop :=
  ∃ (q : fetch_request) (data : json) (valid : value),
    r q = inr {| json_result := inr data |} ∧
    get_field data f_valid = Return valid ∧ truthy valid = true ∧
    get_field data f_agent = Return A ∧
    (is_nullish A = true ∨ ¬ loggable A).

(** The body of a request names the audience the verifier is configured
    with, or ["default"] when it is configured with none. *)
Definition names_audience (v : verifier) (q : fetch_request) : Prop :=
  (∀ a, configured_audience v = Some a → a ≠ "" →
        json_prop (body q) "audience" = Some (JStr a)) ∧
  (unset (configured_audience v) →
        json_prop (body q) "audience" = Some (JStr "default")).

(** The statement of C4 as the specification has it: for a body with a true
    [valid] and an agent object [A], the agent is attached, [next] is called
    once and no response is sent. *)
Definition valid_body_continues
    (v : verifier) (hs : gmap string header_value) (data : json) (valid A : value) : Prop :=
  truthy (header_to_value (hs !! header_name v)) = true →
  ¬ unset (configured_credential v) →
  get_field data f_valid = Return valid →
  truthy valid = true →
  get_field data f_agent = Return A →
  is_nullish A = false →
  req_moltbookAgent (verifyFromRequest v (fresh hs (replies data))).2 = Some A ∧
  next_calls (verifyFromRequest v (fresh hs (replies data))).2 = 1%nat ∧
  res_sent (verifyFromRequest v (fresh hs (replies data))).2 = [].

(** The status codes of the table, with the 500 of the local handlers. *)
Definition error_statuses : list value :=
  [num 401; num 403; num 404; num 429; num 500].

(** ** Callers of the middleware *)

(** *** examples.js *)

(** [optionalMoltbookAuth] of [conditionalAuthExample]. Where a token is
    present the source holds only a comment; the call of [next] follows. *)
Definition optionalMoltbookAuth : M unit :=
  token ← req_header "x-moltbook-identity";
  if negb (truthy token) then
    assign_moltbookAgent (VJson JNull);;
    next
  else
    next.

(** *** API_SPECIFICATION.md, example implementation *)

Definition MY_AUDIENCE : string := "gameapp.com".

Definition verifyBot (process_env : gmap string string) (identityToken : value) : M value :=
  response ← fetch {| url := "https://moltbook.com/api/v1/agents/verify-identity";
                      method := "POST";
                      headers := [ ("Content-Type", str "application/json");
                                   ("X-Moltbook-App-Key",
                                    of_option (process_env !! "MOLTBOOK_APP_KEY")) ];
                      body := JSON_stringify [ ("token", identityToken);
                                               ("audience", str MY_AUDIENCE) ] |};
  data ← VJson <$> response_json response;
  valid ← get data f_valid;
  if negb (truthy valid) then
    error ← get data f_error;
    error' ← lift (to_string error);
    throw (JsError "Error" ("Verification failed: " +:+ error'))
  else
    get data f_agent.

(** *** test-utils.js *)

(** The properties the diagnostics read beyond those of the middleware. *)
Inductive agent_field : Type := a_owner | a_x_handle.

Definition agent_field_name (f : agent_field) : string :=
  match f with
  | a_owner => "owner"
  | a_x_handle => "x_handle"
  end.

(** [v.f] for these names, as [get_field] has it for the others. *)
Definition get_agent_field (v : value) (f : agent_field) : outcome value :=
  match v with
  | VUndefined =>
      Throw (JsError "TypeError"
               ("Cannot read properties of undefined (reading '"
                  +:+ agent_field_name f +:+ "')"))
  | VJson JNull =>
      Throw (JsError "TypeError"
               ("Cannot read properties of null (reading '"
                  +:+ agent_field_name f +:+ "')"))
  | VJson (JObj props) =>
      match (list_to_map props : gmap string json) !! agent_field_name f with
      | Some j => Return (VJson j)
      | None => Return (default VUndefined (Object_prototype !! agent_field_name f))
      end
  | VJson _ => Return VUndefined
  | VBuiltin _ => Return VUndefined
  end.

(** The mock objects of the diagnostics: a request with the given headers, a
    response whose [status] stores [statusCode] and whose [json] stores
    [jsonData], neither of them set at first, and a [next] that sets a flag.
    The network and the console remain the ambient ones. *)
Definition mock (hs : gmap string header_value) : M unit := λ w,
  (Return (),
   {| req_headers := hs; req_moltbookAgent := None;
      res_statusCode := VUndefined; res_sent := [];
      next_calls := 0; remote := remote w; fetched := fetched w;
      console := console w |}).

(** [res.statusCode] *)
Definition read_statusCode : M value := λ w, (Return (res_statusCode w), w).

(** [res.jsonData]: the body of the last [json] call, if any. *)
Definition read_jsonData : M (option (list (string * value))) := λ w,
  (Return (snd <$> last (res_sent w)), w).

(** [nextCalled] *)
Definition read_nextCalled : M bool := λ w,
  (Return (negb (Nat.eqb (next_calls w) 0)), w).

(** [req.moltbookAgent] *)
Definition read_moltbookAgent : M value := λ w,
  (Return (default VUndefined (req_moltbookAgent w)), w).

(** [res.jsonData.k] *)
Definition jsonData_prop (d : option (list (string * value))) (k : string) : M value :=
  match d with
  | None =>
      throw (JsError "TypeError"
               ("Cannot read properties of undefined (reading '" +:+ k +:+ "')"))
  | Some body => mret (body_prop body k)
  end.

(** [v === n] for a number literal [n]. *)
Definition strict_equal_num (v : value) (n : Z) : bool :=
  match v with
  | VJson (JNum m) => m =? n
  | _ => false
  end.

(** [console.warn] writes where [console.error] writes; the log does not
    tell them apart. *)
Definition console_warn (message : string) : M unit := console_error message None.

Definition newline : string := String (ascii_of_nat 10) "".
Definition dquote : string := String (ascii_of_nat 34) "".

Section test_utils.

(** The environment, the same for the diagnostics and for the module under
    test, and the console's rendering of a further argument: of a value, and
    of an object literal. *)
Variable process_env : gmap string string.
Variable inspect : value → string.
Variable inspect_object : list (string * value) → string.

Definition testEnvironmentConfig : M bool :=
  console_log (newline +:+ "Testing environment configuration...");;
  let appKey := process_env !! "MOLTBOOK_APP_KEY" in
  let audience := process_env !! "MOLTBOOK_AUDIENCE" in
  if negb (truthy (of_option appKey)) then
    console_error "✗ MOLTBOOK_APP_KEY not set" None;;
    mret false
  else
    (if negb (String.prefix "moltdev_" (default "" appKey)) then
       console_warn ("⚠ MOLTBOOK_APP_KEY does not start with "
                       +:+ dquote +:+ "moltdev_" +:+ dquote)
     else
       console_log "✓ MOLTBOOK_APP_KEY is configured");;
    (if negb (truthy (of_option audience)) then
       console_warn "⚠ MOLTBOOK_AUDIENCE not set (optional)"
     else
       console_log ("✓ MOLTBOOK_AUDIENCE is configured: " +:+ inspect (of_option audience)));;
    mret true.

Definition testMiddlewareWithMockToken (mockToken : string) : M bool :=
  console_log (newline +:+ "Testing middleware with mock token...");;
  mock {[ "x-moltbook-identity" := HString mockToken ]};;
  verifyMoltbookIdentity process_env;;
  read_nextCalled ≫= λ nextCalled : bool,
  if nextCalled then
    console_log "✓ Middleware succeeded";;
    agent ← read_moltbookAgent;
    (if truthy agent then
       name ← get agent f_name;
       karma ← get agent f_karma;
       owner ← lift (get_agent_field agent a_owner);
       x_handle ← lift (get_agent_field owner a_x_handle);
       console_log ("  Agent: " +:+ inspect_object [ ("name", name); ("karma", karma);
                                                     ("owner", x_handle) ])
     else mret ());;
    mret true
  else
    console_error "✗ Middleware failed" None;;
    jsonData ← read_jsonData;
    (match jsonData with
     | Some body =>
         console_error ("  Error: " +:+ inspect (body_prop body "error")) None;;
         console_error ("  Hint: " +:+ inspect (body_prop body "hint")) None
     | None => mret ()
     end);;
    mret false.

Definition testMissingToken : M bool :=
  console_log (newline +:+ "Testing missing identity token...");;
  mock ∅;;
  verifyMoltbookIdentity process_env;;
  statusCode ← read_statusCode;
  if strict_equal_num statusCode 401 then
    console_log "✓ Correctly returns 401 for missing token";;
    jsonData ← read_jsonData;
    error ← jsonData_prop jsonData "error";
    console_log ("  Error: " +:+ inspect error);;
    mret true
  else
    console_error "✗ Did not return 401 for missing token" None;;
    mret false.

End test_utils.

(** * Properties *)

Arguments getStatusCodeForError : simpl never.
Arguments getErrorHint : simpl never.
Arguments MoltbookAuthMiddleware.getStatusCodeForError : simpl never.
Arguments MoltbookAuthMiddleware.getErrorHint : simpl never.
Arguments to_string : simpl never.
Arguments JSON_stringify : simpl never.
Arguments get_field : simpl never.
Arguments headers_get : simpl never.
Arguments MoltbookAuthMiddleware.first_token : simpl never.

(** ** The lookup tables *)

Lemma truthy_of_option (o : option string) :
  truthy (of_option o) = false ↔ unset o.
Proof.
  unfold unset. destruct o as [s|]; simpl.
  - destruct (String.eqb_spec s ""); simpl; split; intros H; try done.
    + right. by subst.
    + destruct H as [H|H]; [done | congruence].
  - split; auto.
Qed.

Lemma or_string_js_or (a : option string) (d : string) :
  d ≠ "" → js_or (of_option a) (str d) = str (or_string a d).
Proof.
  intros Hd. unfold js_or, or_string. destruct a as [s|]; simpl; [|done].
  by destruct (String.eqb s "").
Qed.

(** The class repeats the tables of the plain module entry for entry. *)
Lemma tables_agree :
  MoltbookAuthMiddleware.statusMap = statusMap ∧ MoltbookAuthMiddleware.hints = hints.
Proof. split; reflexivity. Qed.

Lemma getStatusCodeForError_agree (e : value) :
  MoltbookAuthMiddleware.getStatusCodeForError e = getStatusCodeForError e.
Proof. reflexivity. Qed.

Lemma getErrorHint_agree (e : value) :
  MoltbookAuthMiddleware.getErrorHint e = getErrorHint e.
Proof. reflexivity. Qed.

(** The nine codes of the table. *)
Lemma getStatusCodeForError_table :
  getStatusCodeForError (str "identity_token_expired") = Return (num 401) ∧
  getStatusCodeForError (str "invalid_token") = Return (num 401) ∧
  getStatusCodeForError (str "agent_not_found") = Return (num 404) ∧
  getStatusCodeForError (str "agent_deactivated") = Return (num 403) ∧
  getStatusCodeForError (str "audience_required") = Return (num 401) ∧
  getStatusCodeForError (str "audience_mismatch") = Return (num 401) ∧
  getStatusCodeForError (str "rate_limit_exceeded") = Return (num 429) ∧
  getStatusCodeForError (str "missing_app_key") = Return (num 401) ∧
  getStatusCodeForError (str "invalid_app_key") = Return (num 401).
Proof. repeat split; vm_compute; reflexivity. Qed.

(** What the two functions return for a key that converts to [k]. *)
Lemma getStatusCodeForError_key (e : value) (k : string) :
  to_string e = Return k →
  getStatusCodeForError e = Return (js_or (object_get id statusMap k) (num 401)).
Proof. intros Hk. unfold getStatusCodeForError, literal_get. by rewrite Hk. Qed.

Lemma getErrorHint_key (e : value) (k : string) :
  to_string e = Return k →
  getErrorHint e
  = Return (js_or (object_get id hints k) (str "Identity verification failed.")).
Proof. intros Hk. unfold getErrorHint, literal_get. by rewrite Hk. Qed.

(** A key that cannot be converted makes both lookups throw. *)
Lemma getStatusCodeForError_throw (e : value) (err : exn) :
  to_string e = Throw err →
  getStatusCodeForError e = Throw err ∧ getErrorHint e = Throw err.
Proof.
  intros Hk. unfold getStatusCodeForError, getErrorHint, literal_get. by rewrite Hk.
Qed.

(** A code that names neither a row of the table nor a property of
    [Object.prototype] falls through to the default. *)
Lemma getStatusCodeForError_default (e : value) (k : string) :
  to_string e = Return k →
  statusMap !! k = None →
  Object_prototype !! k = None →
  getStatusCodeForError e = Return (num 401).
Proof.
  intros Hk Hown Hproto. rewrite (getStatusCodeForError_key e k Hk).
  unfold object_get. by rewrite Hown, Hproto.
Qed.

Lemma getErrorHint_default (e : value) (k : string) :
  to_string e = Return k →
  hints !! k = None →
  Object_prototype !! k = None →
  getErrorHint e = Return (str "Identity verification failed.").
Proof.
  intros Hk Hown Hproto. rewrite (getErrorHint_key e k Hk).
  unfold object_get. by rewrite Hown, Hproto.
Qed.

(** An absent [error] field reads as [undefined] and gets the default. *)
Lemma getStatusCodeForError_undefined :
  getStatusCodeForError VUndefined = Return (num 401) ∧
  getErrorHint VUndefined = Return (str "Identity verification failed.").
Proof. split; vm_compute; reflexivity. Qed.

(** The rows of the tables, and of the prototype behind them. *)
Lemma statusMap_rows (k : string) (x : value) :
  statusMap !! k = Some x →
  x ∈ [num 401; num 403; num 404; num 429] ∧ Object_prototype !! k = None.
Proof.
  intros H. apply elem_of_list_to_map_2 in H.
  repeat (apply elem_of_cons in H as [[= -> ->]|H];
          [split; [set_solver | vm_compute; reflexivity]|]).
  by apply not_elem_of_nil in H.
Qed.

Lemma hints_rows (k : string) (x : value) :
  hints !! k = Some x →
  (∃ h, x = str h ∧ h ≠ "") ∧ Object_prototype !! k = None.
Proof.
  intros H. apply elem_of_list_to_map_2 in H.
  repeat (apply elem_of_cons in H as [[= -> ->]|H];
          [split; [eexists; split; [reflexivity | discriminate]
                  | vm_compute; reflexivity]|]).
  by apply not_elem_of_nil in H.
Qed.

Lemma Object_prototype_rows (k : string) (x : value) :
  Object_prototype !! k = Some x → ∃ b, x = VBuiltin b.
Proof.
  intros H. apply elem_of_list_to_map_2 in H.
  repeat (apply elem_of_cons in H as [[= -> ->]|H]; [eauto|]).
  by apply not_elem_of_nil in H.
Qed.

(** A code whose key names no property of [Object.prototype] is answered
    from its row, or from the default. *)
Lemma table_status (e : value) (k : string) :
  to_string e = Return k →
  Object_prototype !! k = None →
  getStatusCodeForError e = Return (default (num 401) (statusMap !! k)).
Proof.
  intros Hk Hproto. rewrite (getStatusCodeForError_key e k Hk).
  unfold object_get, js_or. rewrite Hproto.
  destruct (statusMap !! k) as [x|] eqn:Hs; simpl; [|done].
  apply statusMap_rows in Hs as [Hx _].
  repeat (apply elem_of_cons in Hx as [->|Hx]; [done|]).
  by apply not_elem_of_nil in Hx.
Qed.

Lemma table_hint (e : value) (k : string) :
  to_string e = Return k →
  Object_prototype !! k = None →
  getErrorHint e
  = Return (default (str "Identity verification failed.") (hints !! k)).
Proof.
  intros Hk Hproto. rewrite (getErrorHint_key e k Hk).
  unfold object_get, js_or. rewrite Hproto.
  destruct (hints !! k) as [x|] eqn:Hh; simpl; [|done].
  apply hints_rows in Hh as [(h & -> & Hne) _]. simpl.
  by destruct (String.eqb_spec h "").
Qed.

(** ** Running the entry points *)

Ltac unfold_entry_points :=
  unfold verifyFromRequest, verifyStandalone, createMoltbookMiddleware,
    verifyMoltbookIdentity, verifyIdentityToken,
    MoltbookAuthMiddleware.verify, MoltbookAuthMiddleware.verifyToken.

Ltac run :=
  unfold_entry_points;
  cbv [mbind M_bind fmap M_fmap mret M_ret throw try_catch lift get
       req_header assign_moltbookAgent res_status res_json next
       console_log console_error fetch response_json];
  cbn.

(** Split on whatever the computation inspects next. *)
Ltac split_on_scrutinee :=
  match goal with
  | |- context [match ?x with _ => _ end] =>
      match x with
      | context [match _ with _ => _ end] => fail 1
      | _ => destruct x eqn:?
      end
  end.

(** The header is present and usable as a token exactly when it is not
    missing. *)
Lemma header_missing_falsy (hs : gmap string header_value) (name : string) :
  truthy (header_to_value (hs !! name)) = false ↔ header_missing hs name.
Proof.
  unfold header_missing. destruct (hs !! name) as [[s|items]|]; simpl.
  - destruct (String.eqb_spec s ""); simpl; split; intros H; try done.
    + right. by subst.
    + destruct H as [H|H]; [done | congruence].
  - split; [done | intros [H|H]; done].
  - split; auto.
Qed.

(** Reading a header: an own entry is what is read; without one, the
    prototype is. *)
Lemma headers_get_own (hs : gmap string header_value) (name : string) (h : header_value) :
  hs !! name = Some h → headers_get hs name = header_to_value (Some h).
Proof. intros H. unfold headers_get, object_get. by rewrite H. Qed.

Lemma headers_get_truthy (hs : gmap string header_value) (name : string) :
  truthy (header_to_value (hs !! name)) = true →
  headers_get hs name = header_to_value (hs !! name).
Proof.
  intros H. destruct (hs !! name) as [h|] eqn:Hh; [|done].
  by apply headers_get_own.
Qed.

Lemma headers_get_not_inherited (hs : gmap string header_value) (name : string) :
  Object_prototype !! name = None →
  headers_get hs name = header_to_value (hs !! name).
Proof.
  intros H. unfold headers_get, object_get. rewrite H. by destruct (hs !! name).
Qed.

(** The header name of the plain module is not an inherited one. *)
Lemma headers_get_plain (hs : gmap string header_value) :
  headers_get hs "x-moltbook-identity" = header_to_value (hs !! "x-moltbook-identity").
Proof. by apply headers_get_not_inherited. Qed.

(** What the class makes of a header of its own. *)
Lemma first_token_own (h : header_value) :
  MoltbookAuthMiddleware.first_token (header_to_value (Some h))
  = Return match h with
           | HString s => str s
           | HArray items => of_option (head items)
           end.
Proof.
  destruct h as [s|items]; unfold MoltbookAuthMiddleware.first_token; simpl; [done|].
  by destruct items.
Qed.

(** The class never fails to take a token from what passed its guard. *)
Lemma first_token_defined (x : value) :
  truthy x = true → ∃ t, MoltbookAuthMiddleware.first_token x = Return t.
Proof.
  unfold MoltbookAuthMiddleware.first_token.
  destruct x as [|[]|]; simpl; try done; eauto.
Qed.

(** ** Locally detected failures *)

(** X21. With a header name that [Object.prototype] does not define, as the
    default one, a request whose header is absent or empty is answered 401
    with the missing-token body; the request is left untouched, the remote
    is not called and [next] is not called. *)
Theorem missing_header_rejected_locally
    (v : verifier) (hs : gmap string header_value) (r : fetch_request → exn + response) :
  Object_prototype !! header_name v = None →
  header_missing hs (header_name v) →
  ∃ hint : string,
    (verifyFromRequest v (fresh hs r)).1 = Return () ∧
    res_sent (verifyFromRequest v (fresh hs r)).2 = [(num 401, missing_token_body hint)] ∧
    fetched (verifyFromRequest v (fresh hs r)).2 = [] ∧
    next_calls (verifyFromRequest v (fresh hs r)).2 = 0%nat ∧
    req_moltbookAgent (verifyFromRequest v (fresh hs r)).2 = None.
Proof.
  intros Hname Hmiss%header_missing_falsy.
  destruct v as [env|config]; simpl in Hmiss, Hname; eexists; run;
    rewrite headers_get_not_inherited by done; rewrite Hmiss; cbn; done.
Qed.

Lemma missing_header_rejected_locally_witness :
  ∃ hint : string,
    res_sent (verifyFromRequest (Plain ∅) (fresh ∅ (replies JNull))).2
      = [(num 401, missing_token_body hint)].
Proof.
  destruct (missing_header_rejected_locally (Plain ∅) ∅ (replies JNull))
    as (hint & _ & H & _).
  - reflexivity.
  - left. reflexivity.
  - exists hint. exact H.
Defined.

(** C2, at the failing input. The class reads the header map under the
    configured name through the prototype as well: configured with the
    header name [constructor], it finds the inherited [Object] in a request
    that has no header at all, takes it for a token, and calls the remote
    with a body that has no token; when the remote declares that valid, the
    request continues. No 401 is sent. *)
Theorem inherited_header_name_skips_guard :
  header_missing ∅
    (header_name (Typed {| MoltbookAuthMiddleware.config_apiKey := Some "moltdev_key";
                           MoltbookAuthMiddleware.config_audience := None;
                           MoltbookAuthMiddleware.config_verifyEndpoint := None;
                           MoltbookAuthMiddleware.config_headerName := Some "constructor" |})) ∧
  fetched
    (verifyFromRequest
       (Typed {| MoltbookAuthMiddleware.config_apiKey := Some "moltdev_key";
                 MoltbookAuthMiddleware.config_audience := None;
                 MoltbookAuthMiddleware.config_verifyEndpoint := None;
                 MoltbookAuthMiddleware.config_headerName := Some "constructor" |})
       (fresh ∅ (replies (JObj [("valid", JBool true);
                                ("agent", JObj [("name", JStr "Bot");
                                                ("karma", JNum 420)])])))).2
  = [ {| url := "https://moltbook.com/api/v1/agents/verify-identity";
         method := "POST";
         headers := [ ("Content-Type", str "application/json");
                      ("X-Moltbook-App-Key", str "moltdev_key") ];
         body := JObj [ ("audience", JStr "default") ] |} ] ∧
  res_sent
    (verifyFromRequest
       (Typed {| MoltbookAuthMiddleware.config_apiKey := Some "moltdev_key";
                 MoltbookAuthMiddleware.config_audience := None;
                 MoltbookAuthMiddleware.config_verifyEndpoint := None;
                 MoltbookAuthMiddleware.config_headerName := Some "constructor" |})
       (fresh ∅ (replies (JObj [("valid", JBool true);
                                ("agent", JObj [("name", JStr "Bot");
                                                ("karma", JNum 420)])])))).2
  = [] ∧
  next_calls
    (verifyFromRequest
       (Typed {| MoltbookAuthMiddleware.config_apiKey := Some "moltdev_key";
                 MoltbookAuthMiddleware.config_audience := None;
                 MoltbookAuthMiddleware.config_verifyEndpoint := None;
                 MoltbookAuthMiddleware.config_headerName := Some "constructor" |})
       (fresh ∅ (replies (JObj [("valid", JBool true);
                                ("agent", JObj [("name", JStr "Bot");
                                                ("karma", JNum 420)])])))).2
  = 1%nat.
Proof.
  split; [left; reflexivity|]. repeat split; vm_compute; reflexivity.
Qed.




(** ** The remote phase *)

Lemma configured_truthy (o : option string) :
  ¬ unset o → truthy (of_option o) = true.
Proof.
  intros H. destruct (truthy (of_option o)) eqn:E; [done|].
  by apply truthy_of_option in E.
Qed.

(** Reading a property fails only on [undefined] and [null]. *)
Lemma get_field_throw (v : value) (f : field) (e : exn) :
  get_field v f = Throw e → is_nullish v = true.
Proof.
  destruct v as [|[]|b]; unfold get_field; try done.
  - by destruct (_ !! _).
  - by destruct f, b.
Qed.

Lemma get_field_defined (v : value) (f : field) :
  is_nullish v = false → ∃ x, get_field v f = Return x.
Proof.
  intros Hv. destruct (get_field v f) as [x|e] eqn:E; [by exists x|].
  apply get_field_throw in E. congruence.
Qed.

(** C4, counterexample. The log line converts the agent's name to a string
    inside the [try]. On a body whose agent has a name that cannot be
    converted (an object with a [toString] property of its own), the agent is
    attached, the conversion throws, and the handler answers 500 without
    calling [next]. *)
Lemma unprintable_name_ends_in_500 :
  ¬ valid_body_continues
      (Plain {[ "MOLTBOOK_APP_KEY" := "moltdev_key" ]})
      {[ "x-moltbook-identity" := HString "tok123" ]}
      (JObj [("valid", JBool true);
             ("agent", JObj [("name", JObj [("toString", JNum 0)]); ("karma", JNum 1)])])
      (VJson (JBool true))
      (VJson (JObj [("name", JObj [("toString", JNum 0)]); ("karma", JNum 1)])).
Proof.
  intros H. destruct H as (_ & H & _).
  - reflexivity.
  - intros [H|H]; vm_compute in H; discriminate H.
  - vm_compute. reflexivity.
  - reflexivity.
  - vm_compute. reflexivity.
  - reflexivity.
  - vm_compute in H. discriminate H.
Qed.

(** C4, amended. When the remote answers with a body whose [valid] is true
    and whose [agent] is an object [A] with a [name] and a [karma] that
    convert to strings, as the string and the number of an agent profile do,
    the request-interception entry point attaches exactly [A] to the
    request, calls [next] once, and sends no response. *)
Theorem verified_agent_attached
    (v : verifier) (hs : gmap string header_value) (data : json) (valid A : value) :
  truthy (header_to_value (hs !! header_name v)) = true →
  ¬ unset (configured_credential v) →
  get_field data f_valid = Return valid →
  truthy valid = true →
  get_field data f_agent = Return A →
  is_nullish A = false →
  loggable A →
  (verifyFromRequest v (fresh hs (replies data))).1 = Return () ∧
  req_moltbookAgent (verifyFromRequest v (fresh hs (replies data))).2 = Some A ∧
  next_calls (verifyFromRequest v (fresh hs (replies data))).2 = 1%nat ∧
  res_sent (verifyFromRequest v (fresh hs (replies data))).2 = [].
Proof.
  intros Htok Hcred%configured_truthy Hvalid Hv Hagent HA
    (name & karma & Hname & [name' Hname'] & Hkarma & [karma' Hkarma']).
  destruct v as [env|config]; simpl in Htok, Hcred; run;
    rewrite headers_get_truthy by done;
    unfold MOLTBOOK_APP_KEY; rewrite Htok, Hcred; cbn.
  - rewrite Hvalid, Hv. cbn. rewrite Hagent. cbn.
    rewrite Hname. cbn. rewrite Hname'. cbn. rewrite Hkarma. cbn. rewrite Hkarma'. cbn.
    done.
  - destruct (first_token_defined _ Htok) as [t ->]. cbn.
    rewrite Hvalid, Hv. cbn. rewrite Hagent. cbn. rewrite HA. cbn.
    rewrite Hname. cbn. rewrite Hname'. cbn. rewrite Hkarma. cbn. rewrite Hkarma'. cbn.
    done.
Qed.

Lemma verified_agent_attached_witness :
  req_moltbookAgent
    (verifyFromRequest (Plain {[ "MOLTBOOK_APP_KEY" := "moltdev_key" ]})
       (fresh {[ "x-moltbook-identity" := HString "tok123" ]}
          (replies (JObj [("valid", JBool true);
                          ("agent", JObj [("name", JStr "Bot"); ("karma", JNum 420)])])))).2
  = Some (VJson (JObj [("name", JStr "Bot"); ("karma", JNum 420)])).
Proof.
  apply (verified_agent_attached
           (Plain {[ "MOLTBOOK_APP_KEY" := "moltdev_key" ]})
           {[ "x-moltbook-identity" := HString "tok123" ]}
           (JObj [("valid", JBool true);
                  ("agent", JObj [("name", JStr "Bot"); ("karma", JNum 420)])])
           (VJson (JBool true))
           (VJson (JObj [("name", JStr "Bot"); ("karma", JNum 420)]))).
  - reflexivity.
  - intros [H|H]; vm_compute in H; discriminate H.
  - vm_compute. reflexivity.
  - reflexivity.
  - vm_compute. reflexivity.
  - reflexivity.
  - exists (str "Bot"), (num 420).
    split; [vm_compute; reflexivity|].
    split; [exists "Bot"; reflexivity|].
    split; [vm_compute; reflexivity|].
    exists "420". vm_compute. reflexivity.
Defined.

(** C5. When the call to the remote endpoint fails in transport ([fetch]
    rejects, as on a network error or a timeout, or the body is not JSON),
    the request-interception entry point returns normally, having answered
    500 with the generic verification-failure body. *)
Theorem transport_failure_gives_500
    (v : verifier) (hs : gmap string header_value) (r : fetch_request → exn + response) :
  truthy (header_to_value (hs !! header_name v)) = true →
  ¬ unset (configured_credential v) →
  (∀ q, transport_failure (r q)) →
  (verifyFromRequest v (fresh hs r)).1 = Return () ∧
  res_sent (verifyFromRequest v (fresh hs r)).2 = [(num 500, verification_failure_body)] ∧
  next_calls (verifyFromRequest v (fresh hs r)).2 = 0%nat ∧
  req_moltbookAgent (verifyFromRequest v (fresh hs r)).2 = None.
Proof.
  intros Htok Hcred%configured_truthy Hfail.
  destruct v as [env|config]; simpl in Htok, Hcred; run;
    rewrite headers_get_truthy by done;
    unfold MOLTBOOK_APP_KEY; rewrite Htok, Hcred; cbn;
    try (destruct (first_token_defined _ Htok) as [t ->]; cbn);
    match goal with |- context [r ?q] => destruct (Hfail q) end; cbn; done.
Qed.

Lemma transport_failure_gives_500_witness :
  res_sent
    (verifyFromRequest (Plain {[ "MOLTBOOK_APP_KEY" := "moltdev_key" ]})
       (fresh {[ "x-moltbook-identity" := HString "tok123" ]}
          (λ _, inl (JsError "TypeError" "fetch failed")))).2
  = [(num 500, verification_failure_body)].
Proof.
  apply (transport_failure_gives_500
           (Plain {[ "MOLTBOOK_APP_KEY" := "moltdev_key" ]})
           {[ "x-moltbook-identity" := HString "tok123" ]}
           (λ _, inl (JsError "TypeError" "fetch failed"))).
  - reflexivity.
  - intros [H|H]; vm_compute in H; discriminate H.
  - intros q. constructor.
Defined.

(** ** Every run of the request-interception entry point *)

Lemma interception_outcomes
    (v : verifier) (hs : gmap string header_value) (r : fetch_request → exn + response) :
  (verifyFromRequest v (fresh hs r)).1 = Return () ∧
  (ends_in_response (verifyFromRequest v (fresh hs r)).2 ∨
   ends_in_continue (verifyFromRequest v (fresh hs r)).2).
Proof.
  unfold ends_in_response, ends_in_continue.
  destruct v as [env|config]; run; repeat (split_on_scrutinee; cbn);
    (split; [done|]); eauto 10.
Qed.

(** C10, counterexample. The plain module assigns [req.moltbookAgent] before
    it formats the log line. On a body that declares the token valid but
    whose agent has a name that cannot be converted to a string, the agent
    object is attached, the log line throws, and the handler answers 500:
    a failure response with the agent still on the request. *)
Lemma agent_stays_attached_after_failure :
  ¬ failure_leaves_agent_undefined
      (Plain {[ "MOLTBOOK_APP_KEY" := "moltdev_key" ]})
      {[ "x-moltbook-identity" := HString "tok123" ]}
      (replies (JObj [("valid", JBool true);
                      ("agent", JObj [("name", JObj [("toString", JNum 0)]);
                                      ("karma", JNum 1)])])).
Proof.
  intros H. destruct H as [[H|H] _].
  - vm_compute. discriminate.
  - vm_compute in H. discriminate H.
  - vm_compute in H. discriminate H.
Qed.

Lemma not_loggable_name (A name : value) (e : exn) :
  get_field A f_name = Return name → to_string name = Throw e → ¬ loggable A.
Proof.
  intros Hname He (name' & karma & Hname' & [s Hs] & _). congruence.
Qed.

Lemma not_loggable_karma (A karma : value) (e : exn) :
  get_field A f_karma = Return karma → to_string karma = Throw e → ¬ loggable A.
Proof.
  intros Hkarma He (name & karma' & _ & _ & Hkarma' & [s Hs]). congruence.
Qed.

(** C10, amended. After a failure response [next] has not been called: a
    response and the continuation exclude each other. The request then holds
    no agent, except when the remote declared the token valid and the
    handler failed on the agent it had already attached: an agent that is
    [undefined] or [null], or one whose name or karma cannot be converted to
    a string. In particular, when the remote does not declare the token
    valid, as after a missing token, a missing credential, a remote
    rejection or a transport failure, [req.moltbookAgent] was never
    assigned. *)
Theorem failure_leaves_no_agent
    (v : verifier) (hs : gmap string header_value) (r : fetch_request → exn + response) :
  res_sent (verifyFromRequest v (fresh hs r)).2 ≠ [] →
  next_calls (verifyFromRequest v (fresh hs r)).2 = 0%nat ∧
  (req_moltbookAgent (verifyFromRequest v (fresh hs r)).2 = None ∨
   ∃ A, req_moltbookAgent (verifyFromRequest v (fresh hs r)).2 = Some A ∧
        agent_left_behind r A) ∧
  ((∀ q, ¬ declares_valid (r q)) →
   req_moltbookAgent (verifyFromRequest v (fresh hs r)).2 = None).
Proof.
  intros Hsent.
  assert (Hmain :
    next_calls (verifyFromRequest v (fresh hs r)).2 = 0%nat ∧
    (req_moltbookAgent (verifyFromRequest v (fresh hs r)).2 = None ∨
     ∃ A, req_moltbookAgent (verifyFromRequest v (fresh hs r)).2 = Some A ∧
          agent_left_behind r A)).
  { revert Hsent. unfold agent_left_behind.
    destruct v as [env|config]; run; repeat (split_on_scrutinee; cbn);
      intros Hsent; (split; [done|]); try (by left);
      right; eexists; (split; [reflexivity|]);
      match goal with
      | Hr : r ?q = inr ?resp, Hj : json_result ?resp = inr ?data,
        Hvalid : get_field (VJson ?data) f_valid = Return ?valid,
        Hv : negb (truthy ?valid) = false |- _ =>
          exists q, data, valid;
          destruct resp; simpl in Hj; subst;
          split; [done|]; split; [done|];
          split; [by destruct (truthy valid)|]; split; [done|]
      end;
      first [ left; assumption
            | left; eapply get_field_throw; eassumption
            | right; eapply not_loggable_name; eassumption
            | right; eapply not_loggable_karma; eassumption ]. }
  destruct Hmain as [Hnext Hagent]. split; [done|]. split; [done|].
  intros Hnever. destruct Hagent as [|(A & _ & q & data & valid & Hr & Hvalid & Hv & _)];
    [done|].
  destruct (Hnever q). by exists data, valid.
Qed.

Lemma failure_leaves_no_agent_witness :
  res_sent (verifyFromRequest (Plain ∅) (fresh ∅ (replies JNull))).2 ≠ [] ∧
  next_calls (verifyFromRequest (Plain ∅) (fresh ∅ (replies JNull))).2 = 0%nat.
Proof.
  assert (Hsent : res_sent (verifyFromRequest (Plain ∅) (fresh ∅ (replies JNull))).2 ≠ [])
    by (vm_compute; discriminate).
  split; [exact Hsent|].
  exact (proj1 (failure_leaves_no_agent (Plain ∅) ∅ (replies JNull) Hsent)).
Defined.

(** ** The standalone entry point *)

(** The request-interception entry point calls the remote exactly when what
    it read under the header name is truthy and it has a credential, and
    then once. *)
Lemma interception_fetched
    (v : verifier) (hs : gmap string header_value) (r : fetch_request → exn + response) :
  fetched (verifyFromRequest v (fresh hs r)).2
  = if truthy (headers_get hs (header_name v))
       && truthy (of_option (configured_credential v))
    then [outbound v (token_value v (headers_get hs (header_name v)))]
    else [].
Proof.
  destruct v as [env|config]; cbn [header_name configured_credential token_value];
    destruct (truthy (headers_get _ _)) eqn:Htok;
    destruct (truthy (of_option _)) eqn:Hcred;
    simpl in Htok, Hcred;
    run; unfold MOLTBOOK_APP_KEY; rewrite Htok, ?Hcred; cbn;
    try (destruct (first_token_defined _ Htok) as [t ->]; cbn);
    repeat (split_on_scrutinee; cbn); done.
Qed.

(** The same, for a header of the request's own. *)
Lemma interception_fetched_own
    (v : verifier) (hs : gmap string header_value) (r : fetch_request → exn + response) :
  truthy (header_to_value (hs !! header_name v)) = true →
  fetched (verifyFromRequest v (fresh hs r)).2
  = if truthy (of_option (configured_credential v))
    then [outbound v (token_value v (header_to_value (hs !! header_name v)))]
    else [].
Proof.
  intros Htok. rewrite interception_fetched, headers_get_truthy by done.
  by rewrite Htok.
Qed.

Lemma standalone_unconfigured
    (v : verifier) (token : string) (hs : gmap string header_value)
    (r : fetch_request → exn + response) :
  unset (configured_credential v) →
  verifyStandalone v token (fresh hs r)
  = (Throw (JsError "Error" "MOLTBOOK_APP_KEY environment variable is not set"),
     fresh hs r).
Proof.
  intros Hcred%truthy_of_option.
  destruct v as [env|config]; simpl in Hcred; run;
    unfold MOLTBOOK_APP_KEY; rewrite Hcred; cbn; done.
Qed.

Lemma standalone_configured
    (v : verifier) (token : string) (hs : gmap string header_value)
    (r : fetch_request → exn + response) :
  ¬ unset (configured_credential v) →
  verifyStandalone v token (fresh hs r)
  = (raw_reply (r (outbound v (str token))),
     set_fetched [outbound v (str token)] (fresh hs r)).
Proof.
  intros Hcred%configured_truthy.
  destruct v as [env|config]; simpl in Hcred; run;
    unfold MOLTBOOK_APP_KEY; rewrite Hcred; cbn;
    unfold raw_reply;
    match goal with |- context [r ?q] => destruct (r q) as [e|[[e|data]]] end;
    cbn; done.
Qed.

(** C6, counterexample. The standalone entry point returns whatever JSON the
    remote sent: a body [null] comes back as [null]. *)
Lemma standalone_returns_null :
  ¬ never_faults_nor_silent
      (Plain {[ "MOLTBOOK_APP_KEY" := "moltdev_key" ]}) "tok123" ∅ (replies JNull).
Proof.
  intros [_ H]. vm_compute in H. discriminate H.
Qed.

(** C6, amended. The request-interception entry point never raises: every run
    returns, after exactly one response or exactly one call of [next]. The
    standalone entry point raises an [Error] without calling the remote when
    the credential is unset; otherwise it sends one request and passes on
    what comes back: the transport's rejection as a rejection, the parsed
    body as its result, unchecked. *)
Theorem entry_points_outcomes
    (v : verifier) (token : string) (hs : gmap string header_value)
    (r : fetch_request → exn + response) :
  ((verifyFromRequest v (fresh hs r)).1 = Return () ∧
   (ends_in_response (verifyFromRequest v (fresh hs r)).2 ∨
    ends_in_continue (verifyFromRequest v (fresh hs r)).2)) ∧
  (unset (configured_credential v) →
   (verifyStandalone v token (fresh hs r)).1
     = Throw (JsError "Error" "MOLTBOOK_APP_KEY environment variable is not set") ∧
   fetched (verifyStandalone v token (fresh hs r)).2 = []) ∧
  (¬ unset (configured_credential v) →
   (verifyStandalone v token (fresh hs r)).1 = raw_reply (r (outbound v (str token))) ∧
   fetched (verifyStandalone v token (fresh hs r)).2 = [outbound v (str token)]).
Proof.
  split; [apply interception_outcomes|]. split; intros Hcred.
  - by rewrite standalone_unconfigured.
  - by rewrite standalone_configured.
Qed.

Lemma entry_points_outcomes_witness :
  (verifyStandalone (Plain ∅) "tok123" (fresh ∅ (replies JNull))).1
  = Throw (JsError "Error" "MOLTBOOK_APP_KEY environment variable is not set").
Proof.
  apply (entry_points_outcomes (Plain ∅) "tok123" ∅ (replies JNull)).
  left. reflexivity.
Defined.

(** ** The two entry points compared *)


Lemma first_token_string (s : string) :
  MoltbookAuthMiddleware.first_token (str s) = Return (str s).
Proof. reflexivity. Qed.



(** ** The outbound request *)

Lemma outbound_audience (v : verifier) (token : value) :
  json_prop (body (outbound v token)) "audience"
  = Some (JStr (or_string (configured_audience v) "default")).
Proof.
  destruct v as [env|config]; cbn; unfold JSON_stringify, MY_DOMAIN;
    destruct token as [|j|[| |name]]; reflexivity.
Qed.

Lemma outbound_names_audience (v : verifier) (token : value) :
  names_audience v (outbound v token).
Proof.
  unfold names_audience. rewrite outbound_audience. split.
  - intros a -> Ha. unfold or_string. by destruct (String.eqb_spec a "").
  - by intros [-> | ->].
Qed.

(** C8. A verification that has a token and a credential reaches the remote,
    and the body it sends has an [audience] field: the configured audience
    when one is configured, and ["default"] when none is. This holds of the
    request-interception entry point for every request whose header holds a
    token, of the standalone entry point for every token, and of every
    request that either of them sends at all. *)
Theorem audience_always_sent
    (v : verifier) (token : string) (hs : gmap string header_value)
    (r : fetch_request → exn + response) :
  ¬ unset (configured_credential v) →
  (truthy (header_to_value (hs !! header_name v)) = true →
   ∃ q, fetched (verifyFromRequest v (fresh hs r)).2 = [q] ∧ names_audience v q) ∧
  (∃ q, fetched (verifyStandalone v token (fresh hs r)).2 = [q] ∧ names_audience v q) ∧
  (∀ q, q ∈ fetched (verifyFromRequest v (fresh hs r)).2 ∨
        q ∈ fetched (verifyStandalone v token (fresh hs r)).2 →
        names_audience v q).
Proof.
  intros Hcred. pose proof (configured_truthy _ Hcred) as Hkey.
  split; [|split].
  - intros Htok. rewrite interception_fetched_own, Hkey by done.
    eexists. split; [reflexivity|]. apply outbound_names_audience.
  - rewrite standalone_configured by done.
    eexists. split; [reflexivity|]. apply outbound_names_audience.
  - intros q [Hq|Hq].
    + rewrite interception_fetched in Hq.
      destruct (_ && _); [|by apply not_elem_of_nil in Hq].
      apply list_elem_of_singleton in Hq as ->. apply outbound_names_audience.
    + rewrite standalone_configured in Hq by done.
      apply list_elem_of_singleton in Hq as ->. apply outbound_names_audience.
Qed.

Lemma audience_always_sent_witness :
  ∃ q, fetched
         (verifyFromRequest (Plain {[ "MOLTBOOK_APP_KEY" := "moltdev_key";
                                      "MOLTBOOK_AUDIENCE" := "example.com" ]})
            (fresh {[ "x-moltbook-identity" := HString "tok123" ]} (replies JNull))).2
       = [q] ∧
       json_prop (body q) "audience" = Some (JStr "example.com").
Proof.
  destruct (audience_always_sent
              (Plain {[ "MOLTBOOK_APP_KEY" := "moltdev_key";
                        "MOLTBOOK_AUDIENCE" := "example.com" ]})
              "tok123" {[ "x-moltbook-identity" := HString "tok123" ]} (replies JNull))
    as (Hrequest & _ & _).
  - intros [H|H]; vm_compute in H; discriminate H.
  - destruct Hrequest as (q & Hq & Haudience & _); [reflexivity|].
    exists q. split; [exact Hq|].
    apply Haudience; [reflexivity | discriminate].
Defined.

(** ** Reading the token header *)

(** C9, counterexample. The header map is read with the configured name as
    the key, as it is: a token stored under [X-Moltbook-Identity] is not
    found under [x-moltbook-identity], and the request is answered 401. *)
Lemma header_lookup_is_exact :
  ¬ header_lookup_ignores_case
      (Plain {[ "MOLTBOOK_APP_KEY" := "moltdev_key" ]})
      "X-Moltbook-Identity" (HString "tok123")
      (replies (JObj [("valid", JBool true);
                      ("agent", JObj [("name", JStr "Bot"); ("karma", JNum 420)])])).
Proof.
  intros H. specialize (H eq_refl). vm_compute in H. discriminate H.
Qed.

Lemma headers_get_same (hs hs' : gmap string header_value) (name : string) :
  hs !! name = hs' !! name → headers_get hs name = headers_get hs' name.
Proof. intros H. unfold headers_get, object_get. by rewrite H. Qed.

(** C9, amended. Token extraction reads the header map at exactly the
    configured name: two header maps that agree at that key give the same
    run, whatever else they hold and however else the name is spelled in
    them. *)
Theorem header_lookup_by_configured_name
    (v : verifier) (hs hs' : gmap string header_value)
    (r : fetch_request → exn + response) :
  hs !! header_name v = hs' !! header_name v →
  observable (verifyFromRequest v (fresh hs r))
  = observable (verifyFromRequest v (fresh hs' r)).
Proof.
  intros Hsame%headers_get_same. unfold observable.
  destruct v as [env|config]; simpl in Hsame; run; rewrite Hsame;
    repeat (split_on_scrutinee; cbn); done.
Qed.

Lemma header_lookup_by_configured_name_witness :
  observable (verifyFromRequest (Plain ∅)
                (fresh {[ "x-moltbook-identity" := HString "tok123" ]} (replies JNull)))
  = observable (verifyFromRequest (Plain ∅)
                  (fresh {[ "x-moltbook-identity" := HString "tok123";
                            "accept" := HString "application/json" ]} (replies JNull))).
Proof.
  apply (header_lookup_by_configured_name (Plain ∅)).
  reflexivity.
Defined.

(** The class uses the configured header name as it was given: configured
    with a capitalised name, it does not find the token that the host filed
    under the lower-cased one. *)
Lemma configured_name_is_not_folded :
  res_sent
    (verifyFromRequest
       (Typed {| MoltbookAuthMiddleware.config_apiKey := Some "moltdev_key";
                 MoltbookAuthMiddleware.config_audience := None;
                 MoltbookAuthMiddleware.config_verifyEndpoint := None;
                 MoltbookAuthMiddleware.config_headerName := Some "X-Moltbook-Identity" |})
       (fresh {[ "x-moltbook-identity" := HString "tok123" ]} (replies JNull))).2
  = [(num 401,
      missing_token_body "Include X-Moltbook-Identity header with your identity token")].
Proof. vm_compute. reflexivity. Qed.

(** ** Remote rejections *)

(** The response to a remote rejection: the status and the hint are looked
    up under the code the remote sent, and the code is passed on. *)
Lemma remote_rejection_response
    (v : verifier) (hs : gmap string header_value) (data : json)
    (valid E status hint : value) :
  truthy (header_to_value (hs !! header_name v)) = true →
  ¬ unset (configured_credential v) →
  get_field data f_valid = Return valid →
  truthy valid = false →
  get_field data f_error = Return E →
  getStatusCodeForError E = Return status →
  getErrorHint E = Return hint →
  (verifyFromRequest v (fresh hs (replies data))).1 = Return () ∧
  res_sent (verifyFromRequest v (fresh hs (replies data))).2
    = [(status, [("error", E); ("hint", hint)])] ∧
  next_calls (verifyFromRequest v (fresh hs (replies data))).2 = 0%nat ∧
  req_moltbookAgent (verifyFromRequest v (fresh hs (replies data))).2 = None.
Proof.
  intros Htok Hcred%configured_truthy Hvalid Hv HE Hstatus Hhint.
  destruct v as [env|config]; simpl in Htok, Hcred; run;
    rewrite headers_get_truthy by done;
    unfold MOLTBOOK_APP_KEY; rewrite Htok, Hcred; cbn;
    try (destruct (first_token_defined _ Htok) as [t ->]; cbn);
    rewrite Hvalid, Hv; cbn; rewrite HE; cbn;
    rewrite ?getStatusCodeForError_agree, ?getErrorHint_agree;
    rewrite Hstatus; cbn; rewrite Hhint; cbn; done.
Qed.

(** C1, at the failing input. A code that names a property of
    [Object.prototype] is found through the prototype of the table: for
    ["constructor"] both copies of [getStatusCodeForError] return the
    function [Object], not 401, and the middleware hands that function to
    [res.status]. *)
Theorem inherited_name_is_not_defaulted :
  getStatusCodeForError (str "constructor") = Return (VBuiltin BObject) ∧
  MoltbookAuthMiddleware.getStatusCodeForError (str "constructor")
    = Return (VBuiltin BObject) ∧
  res_sent (verifyFromRequest (Plain {[ "MOLTBOOK_APP_KEY" := "moltdev_key" ]})
              (fresh {[ "x-moltbook-identity" := HString "tok123" ]}
                 (replies (JObj [("valid", JBool false);
                                 ("error", JStr "constructor")])))).2
  = [(VBuiltin BObject, [("error", str "constructor"); ("hint", VBuiltin BObject)])].
Proof. repeat split; vm_compute; reflexivity. Qed.

(** * Further properties of the code *)

(** ** The tables *)

(** X1. What the two lookups give for an error value. When the value cannot
    be converted to a property key, both throw that conversion's error.
    Otherwise, a key that does not name a property of [Object.prototype]
    gets one of the statuses 401, 403, 404, 429 and a non-empty hint text,
    and a key that does gets that inherited property itself, as status and
    as hint. *)
Theorem status_and_hint_range (e : value) :
  match to_string e with
  | Throw err =>
      getStatusCodeForError e = Throw err ∧ getErrorHint e = Throw err
  | Return k =>
      match Object_prototype !! k with
      | None =>
          (∃ status, getStatusCodeForError e = Return status ∧
                     status ∈ [num 401; num 403; num 404; num 429]) ∧
          ∃ h, getErrorHint e = Return (str h) ∧ h ≠ ""
      | Some inherited =>
          getStatusCodeForError e = Return inherited ∧
          getErrorHint e = Return inherited ∧
          ∃ b, inherited = VBuiltin b
      end
  end.
Proof.
  destruct (to_string e) as [k|err] eqn:Hk.
  2: { by apply getStatusCodeForError_throw. }
  rewrite (getStatusCodeForError_key e k Hk), (getErrorHint_key e k Hk).
  unfold object_get, js_or.
  destruct (Object_prototype !! k) as [inherited|] eqn:Hproto.
  - destruct (Object_prototype_rows _ _ Hproto) as [b ->].
    destruct (statusMap !! k) as [x|] eqn:Hs.
    { apply statusMap_rows in Hs as [_ Hs]. congruence. }
    destruct (hints !! k) as [x|] eqn:Hh.
    { apply hints_rows in Hh as [_ Hh]. congruence. }
    simpl. eauto.
  - split.
    + destruct (statusMap !! k) as [x|] eqn:Hs; simpl.
      * apply statusMap_rows in Hs as [Hx _]. exists x.
        repeat (apply elem_of_cons in Hx as [->|Hx]; [simpl; split; [done | set_solver]|]).
        by apply not_elem_of_nil in Hx.
      * eexists. split; [reflexivity | set_solver].
    + destruct (hints !! k) as [x|] eqn:Hh; simpl.
      * apply hints_rows in Hh as [(h & -> & Hne) _]. simpl.
        destruct (String.eqb_spec h ""); [done|]. simpl. eauto.
      * eexists. split; [reflexivity | discriminate].
Qed.

(** X2. The two tables list the same codes: a code has a status of its own
    exactly when it has a hint of its own. *)
Theorem tables_list_same_codes (k : string) :
  is_Some (statusMap !! k) ↔ is_Some (hints !! k).
Proof.
  split; intros [x H]; apply elem_of_list_to_map_2 in H;
    repeat (apply elem_of_cons in H as [[= -> ->]|H]; [vm_compute; eauto|]);
    by apply not_elem_of_nil in H.
Qed.

(** ** Construction *)

Lemma or_string_nonempty (a : option string) (d : string) :
  d ≠ "" → or_string a d ≠ "".
Proof.
  intros Hd. unfold or_string. destruct a as [s|]; [|done].
  by destruct (String.eqb_spec s "").
Qed.

Lemma or_string_given (a : option string) (d s : string) :
  a = Some s → s ≠ "" → or_string a d = s.
Proof.
  intros -> Hs. unfold or_string. by destruct (String.eqb_spec s "").
Qed.

(** X3. An instance of the class never holds an empty audience, endpoint or
    header name: a setting that is absent or empty is replaced by its
    default, and a setting that is given is kept as it is (the header name
    is not lower-cased). The credential is taken over unchecked. *)
Theorem constructor_defaults (config : MoltbookAuthMiddleware.MoltbookAuthConfig) :
  (MoltbookAuthMiddleware.audience (MoltbookAuthMiddleware.constructor config) ≠ "" ∧
   MoltbookAuthMiddleware.verifyEndpoint (MoltbookAuthMiddleware.constructor config) ≠ "" ∧
   MoltbookAuthMiddleware.headerName (MoltbookAuthMiddleware.constructor config) ≠ "") ∧
  (∀ s, s ≠ "" →
     (MoltbookAuthMiddleware.config_audience config = Some s →
      MoltbookAuthMiddleware.audience (MoltbookAuthMiddleware.constructor config) = s) ∧
     (MoltbookAuthMiddleware.config_verifyEndpoint config = Some s →
      MoltbookAuthMiddleware.verifyEndpoint (MoltbookAuthMiddleware.constructor config) = s) ∧
     (MoltbookAuthMiddleware.config_headerName config = Some s →
      MoltbookAuthMiddleware.headerName (MoltbookAuthMiddleware.constructor config) = s)) ∧
  (unset (MoltbookAuthMiddleware.config_audience config) →
     MoltbookAuthMiddleware.audience (MoltbookAuthMiddleware.constructor config)
     = "default") ∧
  (unset (MoltbookAuthMiddleware.config_verifyEndpoint config) →
     MoltbookAuthMiddleware.verifyEndpoint (MoltbookAuthMiddleware.constructor config)
     = MOLTBOOK_VERIFY_ENDPOINT) ∧
  (unset (MoltbookAuthMiddleware.config_headerName config) →
     MoltbookAuthMiddleware.headerName (MoltbookAuthMiddleware.constructor config)
     = "x-moltbook-identity") ∧
  MoltbookAuthMiddleware.apiKey (MoltbookAuthMiddleware.constructor config)
  = MoltbookAuthMiddleware.config_apiKey config.
Proof.
  cbn. repeat split.
  - by apply or_string_nonempty.
  - by apply or_string_nonempty.
  - by apply or_string_nonempty.
  - intros Hc. by apply or_string_given.
  - intros Hc. by apply or_string_given.
  - intros Hc. by apply or_string_given.
  - by intros [-> | ->].
  - by intros [-> | ->].
  - by intros [-> | ->].
Qed.

Lemma constructor_defaults_witness :
  MoltbookAuthMiddleware.headerName
    (MoltbookAuthMiddleware.constructor
       {| MoltbookAuthMiddleware.config_apiKey := Some "moltdev_key";
          MoltbookAuthMiddleware.config_audience := Some "";
          MoltbookAuthMiddleware.config_verifyEndpoint := None;
          MoltbookAuthMiddleware.config_headerName := Some "X-Bot-Token" |})
  = "X-Bot-Token".
Proof.
  destruct (constructor_defaults
              {| MoltbookAuthMiddleware.config_apiKey := Some "moltdev_key";
                 MoltbookAuthMiddleware.config_audience := Some "";
                 MoltbookAuthMiddleware.config_verifyEndpoint := None;
                 MoltbookAuthMiddleware.config_headerName := Some "X-Bot-Token" |})
    as (_ & Hgiven & _).
  destruct (Hgiven "X-Bot-Token") as (_ & _ & H); [discriminate|].
  apply H. reflexivity.
Defined.

(** ** The outbound request, in full *)

Lemma standalone_fetched
    (v : verifier) (token : string) (hs : gmap string header_value)
    (r : fetch_request → exn + response) :
  fetched (verifyStandalone v token (fresh hs r)).2
  = if truthy (of_option (configured_credential v))
    then [outbound v (str token)] else [].
Proof.
  destruct (truthy (of_option (configured_credential v))) eqn:Hcred.
  - rewrite standalone_configured; [done|].
    intros Hu%truthy_of_option. congruence.
  - apply truthy_of_option in Hcred. by rewrite standalone_unconfigured.
Qed.

(** X4. No entry point calls the remote more than once in a run: there is
    no retry, whatever the remote answers. *)
Theorem at_most_one_request
    (v : verifier) (token : string) (hs : gmap string header_value)
    (r : fetch_request → exn + response) :
  (length (fetched (verifyFromRequest v (fresh hs r)).2) ≤ 1)%nat ∧
  (length (fetched (verifyStandalone v token (fresh hs r)).2) ≤ 1)%nat.
Proof.
  rewrite interception_fetched, standalone_fetched.
  split; [destruct (_ && _) | destruct (truthy _)]; simpl; lia.
Qed.

(** X5. What the remote is sent. For a request whose header holds the
    string [token], every call made by either entry point is a POST to the
    configured endpoint (the documented one by default), with a JSON content
    type, the credential in [X-Moltbook-App-Key] and nowhere else, and a body
    of exactly the token and the audience. *)
Theorem outbound_request_shape
    (v : verifier) (token : string) (hs : gmap string header_value)
    (r : fetch_request → exn + response) (q : fetch_request) :
  hs !! header_name v = Some (HString token) →
  q ∈ fetched (verifyFromRequest v (fresh hs r)).2 ∨
  q ∈ fetched (verifyStandalone v token (fresh hs r)).2 →
  ∃ key, configured_credential v = Some key ∧ key ≠ "" ∧
    q = {| url := or_string (configured_endpoint v) MOLTBOOK_VERIFY_ENDPOINT;
           method := "POST";
           headers := [ ("Content-Type", str "application/json");
                        ("X-Moltbook-App-Key", str key) ];
           body := JObj [ ("token", JStr token);
                          ("audience", JStr (or_string (configured_audience v) "default")) ] |}.
Proof.
  intros Hhdr Hq.
  assert (Hout : truthy (of_option (configured_credential v)) = true ∧
                 q = outbound v (str token)).
  { destruct Hq as [Hq|Hq].
    - rewrite interception_fetched, (headers_get_own _ _ _ Hhdr) in Hq.
      destruct (truthy (of_option _)); [split; [done|]|].
      + destruct (truthy _); simpl in Hq; [|by apply not_elem_of_nil in Hq].
        apply list_elem_of_singleton in Hq. by destruct v.
      + rewrite andb_false_r in Hq. by apply not_elem_of_nil in Hq.
    - rewrite standalone_fetched in Hq.
      destruct (truthy (of_option _)); [split; [done|]|].
      + by apply list_elem_of_singleton in Hq.
      + by apply not_elem_of_nil in Hq. }
  destruct Hout as [Hcred ->].
  destruct (configured_credential v) as [key|] eqn:Hkey; [|done].
  exists key. split; [done|]. split.
  { intros ->. done. }
  destruct v as [env|config]; simpl in Hkey; cbn; unfold MOLTBOOK_APP_KEY;
    rewrite Hkey; reflexivity.
Qed.

Lemma outbound_request_shape_witness :
  ∃ key, configured_credential (Plain {[ "MOLTBOOK_APP_KEY" := "moltdev_key" ]}) = Some key ∧
    key ≠ "" ∧
    outbound (Plain {[ "MOLTBOOK_APP_KEY" := "moltdev_key" ]}) (str "tok123")
    = {| url := or_string
                  (configured_endpoint (Plain {[ "MOLTBOOK_APP_KEY" := "moltdev_key" ]}))
                  MOLTBOOK_VERIFY_ENDPOINT;
         method := "POST";
         headers := [ ("Content-Type", str "application/json");
                      ("X-Moltbook-App-Key", str key) ];
         body := JObj [ ("token", JStr "tok123");
                        ("audience",
                         JStr (or_string
                                 (configured_audience
                                    (Plain {[ "MOLTBOOK_APP_KEY" := "moltdev_key" ]}))
                                 "default")) ] |}.
Proof.
  apply (outbound_request_shape
           (Plain {[ "MOLTBOOK_APP_KEY" := "moltdev_key" ]}) "tok123"
           {[ "x-moltbook-identity" := HString "tok123" ]} (replies JNull)).
  - reflexivity.
  - right. vm_compute. apply list_elem_of_here.
Defined.


(** ** Array-valued headers *)

(** X6. A header that arrives as an array is never taken as missing, not
    even an empty one. The plain module forwards the array itself as the
    token; the class forwards its first element, and for an empty array
    sends a body without any token. *)
Theorem array_header_token
    (v : verifier) (items : list string) (hs : gmap string header_value)
    (r : fetch_request → exn + response) :
  hs !! header_name v = Some (HArray items) →
  ¬ unset (configured_credential v) →
  ∃ q, fetched (verifyFromRequest v (fresh hs r)).2 = [q] ∧
       json_prop (body q) "token"
       = match v with
         | Plain _ => Some (JArr (JStr <$> items))
         | Typed _ => JStr <$> head items
         end.
Proof.
  intros Hhdr Hcred%configured_truthy.
  rewrite interception_fetched, (headers_get_own _ _ _ Hhdr), Hcred. simpl.
  eexists. split; [reflexivity|].
  destruct v as [env|config]; cbn; unfold JSON_stringify.
  - reflexivity.
  - by destruct items.
Qed.

Lemma array_header_token_witness :
  ∃ q, fetched
         (verifyFromRequest (Typed (config_of_env {[ "MOLTBOOK_APP_KEY" := "moltdev_key" ]}))
            (fresh {[ "x-moltbook-identity" := HArray [] ]} (replies JNull))).2 = [q] ∧
       json_prop (body q) "token" = None.
Proof.
  apply (array_header_token
           (Typed (config_of_env {[ "MOLTBOOK_APP_KEY" := "moltdev_key" ]})) []
           {[ "x-moltbook-identity" := HArray [] ]} (replies JNull)).
  - reflexivity.
  - intros [H|H]; vm_compute in H; discriminate H.
Defined.

(** ** Remote answers, by shape *)

(** X7. A remote rejection is answered from the tables. When the body has a
    false [valid] and a code [E] that converts to a property key [k] naming
    no property of [Object.prototype], the response has the status of [k]'s
    row, or 401 when there is no row; its body passes [E] on unchanged, with
    the hint of the row or the generic hint; no agent is attached and [next]
    is not called. *)
Theorem rejection_answered_from_tables
    (v : verifier) (hs : gmap string header_value) (data : json) (valid E : value)
    (k : string) :
  truthy (header_to_value (hs !! header_name v)) = true →
  ¬ unset (configured_credential v) →
  get_field data f_valid = Return valid →
  truthy valid = false →
  get_field data f_error = Return E →
  to_string E = Return k →
  Object_prototype !! k = None →
  (verifyFromRequest v (fresh hs (replies data))).1 = Return () ∧
  res_sent (verifyFromRequest v (fresh hs (replies data))).2
    = [(default (num 401) (statusMap !! k),
        [("error", E);
         ("hint", default (str "Identity verification failed.") (hints !! k))])] ∧
  next_calls (verifyFromRequest v (fresh hs (replies data))).2 = 0%nat ∧
  req_moltbookAgent (verifyFromRequest v (fresh hs (replies data))).2 = None.
Proof.
  intros Htok Hcred Hvalid Hv HE Hk Hproto.
  apply remote_rejection_response with valid; try done.
  - by apply table_status.
  - by apply table_hint.
Qed.

Lemma rejection_answered_from_tables_witness :
  res_sent
    (verifyFromRequest (Plain {[ "MOLTBOOK_APP_KEY" := "moltdev_key" ]})
       (fresh {[ "x-moltbook-identity" := HString "tok123" ]}
          (replies (JObj [("valid", JBool false); ("error", JStr "agent_deactivated")])))).2
  = [(num 403,
      [("error", str "agent_deactivated");
       ("hint", str "This agent has been deactivated or banned.")])].
Proof.
  apply (rejection_answered_from_tables
           (Plain {[ "MOLTBOOK_APP_KEY" := "moltdev_key" ]})
           {[ "x-moltbook-identity" := HString "tok123" ]}
           (JObj [("valid", JBool false); ("error", JStr "agent_deactivated")])
           (VJson (JBool false)) (str "agent_deactivated") "agent_deactivated").
  - reflexivity.
  - intros [H|H]; vm_compute in H; discriminate H.
  - vm_compute. reflexivity.
  - reflexivity.
  - vm_compute. reflexivity.
  - vm_compute. reflexivity.
  - vm_compute. reflexivity.
Defined.

(** X22. A remote rejection whose code cannot be converted to a property
    key, such as an object with a [toString] property of its own, is not
    answered from the tables: the lookup throws, and the response is the 500
    of a verification failure. No agent is attached and [next] is not
    called. *)
Theorem unconvertible_code_gives_500
    (v : verifier) (hs : gmap string header_value) (data : json) (valid E : value)
    (err : exn) :
  truthy (header_to_value (hs !! header_name v)) = true →
  ¬ unset (configured_credential v) →
  get_field data f_valid = Return valid →
  truthy valid = false →
  get_field data f_error = Return E →
  to_string E = Throw err →
  (verifyFromRequest v (fresh hs (replies data))).1 = Return () ∧
  res_sent (verifyFromRequest v (fresh hs (replies data))).2
    = [(num 500, verification_failure_body)] ∧
  next_calls (verifyFromRequest v (fresh hs (replies data))).2 = 0%nat ∧
  req_moltbookAgent (verifyFromRequest v (fresh hs (replies data))).2 = None.
Proof.
  intros Htok Hcred%configured_truthy Hvalid Hv HE Hk.
  destruct (getStatusCodeForError_throw E err Hk) as [Hstatus _].
  destruct v as [env|config]; simpl in Htok, Hcred; run;
    rewrite headers_get_truthy by done;
    unfold MOLTBOOK_APP_KEY; rewrite Htok, Hcred; cbn;
    try (destruct (first_token_defined _ Htok) as [t ->]; cbn);
    rewrite Hvalid, Hv; cbn; rewrite HE; cbn;
    rewrite ?getStatusCodeForError_agree;
    rewrite Hstatus; cbn; done.
Qed.

Lemma unconvertible_code_gives_500_witness :
  res_sent
    (verifyFromRequest (Plain {[ "MOLTBOOK_APP_KEY" := "moltdev_key" ]})
       (fresh {[ "x-moltbook-identity" := HString "tok123" ]}
          (replies (JObj [("valid", JBool false);
                          ("error", JObj [("toString", JNum 0)])])))).2
  = [(num 500, verification_failure_body)].
Proof.
  apply (unconvertible_code_gives_500
           (Plain {[ "MOLTBOOK_APP_KEY" := "moltdev_key" ]})
           {[ "x-moltbook-identity" := HString "tok123" ]}
           (JObj [("valid", JBool false); ("error", JObj [("toString", JNum 0)])])
           (VJson (JBool false)) (VJson (JObj [("toString", JNum 0)])) cannot_convert).
  - reflexivity.
  - intros [H|H]; vm_compute in H; discriminate H.
  - vm_compute. reflexivity.
  - reflexivity.
  - vm_compute. reflexivity.
  - vm_compute. reflexivity.
Defined.

Lemma get_field_absent (data : json) (f : field) :
  data ≠ JNull →
  json_prop data (field_name f) = None →
  get_field data f = Return VUndefined.
Proof.
  intros Hnull Habsent. unfold get_field.
  destruct data; try done. simpl in Habsent. rewrite Habsent.
  by destruct f.
Qed.

(** X8. Bodies that are no verification result. A body [null] is answered
    500, as a verification failure. Any other body that has neither a
    [valid] nor an [error] property (a string, a number, an array, an object
    such as [{}]) is taken for a rejection without code: 401 with the generic
    hint and no [error]. In both cases nothing is attached and [next] is not
    called. *)
Theorem unshaped_body_rejected
    (v : verifier) (hs : gmap string header_value) (data : json) :
  truthy (header_to_value (hs !! header_name v)) = true →
  ¬ unset (configured_credential v) →
  json_prop data "valid" = None →
  json_prop data "error" = None →
  res_sent (verifyFromRequest v (fresh hs (replies data))).2
    = match data with
      | JNull => [(num 500, verification_failure_body)]
      | _ => [(num 401, [("error", VUndefined);
                         ("hint", str "Identity verification failed.")])]
      end ∧
  next_calls (verifyFromRequest v (fresh hs (replies data))).2 = 0%nat ∧
  req_moltbookAgent (verifyFromRequest v (fresh hs (replies data))).2 = None.
Proof.
  intros Htok Hcred Hvalid Herror.
  assert (Hrest : data ≠ JNull →
            res_sent (verifyFromRequest v (fresh hs (replies data))).2
              = [(num 401, [("error", VUndefined);
                            ("hint", str "Identity verification failed.")])] ∧
            next_calls (verifyFromRequest v (fresh hs (replies data))).2 = 0%nat ∧
            req_moltbookAgent (verifyFromRequest v (fresh hs (replies data))).2 = None).
  { intros Hnull.
    destruct getStatusCodeForError_undefined as [Hstatus Hhint].
    destruct (remote_rejection_response v hs data VUndefined VUndefined
                (num 401) (str "Identity verification failed."))
      as (_ & Hsent & Hnext & Hagent); try done.
    - by apply (get_field_absent data f_valid).
    - by apply (get_field_absent data f_error). }
  destruct data; try (by apply Hrest).
  apply configured_truthy in Hcred.
  destruct v as [env|config]; simpl in Htok, Hcred; run;
    rewrite headers_get_truthy by done;
    unfold MOLTBOOK_APP_KEY; rewrite Htok, Hcred; cbn;
    try (destruct (first_token_defined _ Htok) as [t ->]; cbn); done.
Qed.

Lemma unshaped_body_rejected_witness :
  res_sent
    (verifyFromRequest (Plain {[ "MOLTBOOK_APP_KEY" := "moltdev_key" ]})
       (fresh {[ "x-moltbook-identity" := HString "tok123" ]}
          (replies (JObj [])))).2
  = [(num 401, [("error", VUndefined); ("hint", str "Identity verification failed.")])].
Proof.
  apply (unshaped_body_rejected
           (Plain {[ "MOLTBOOK_APP_KEY" := "moltdev_key" ]})
           {[ "x-moltbook-identity" := HString "tok123" ]} (JObj [])).
  - reflexivity.
  - intros [H|H]; vm_compute in H; discriminate H.
  - reflexivity.
  - reflexivity.
Defined.

(** ** What the next stage can rely on *)

(** X9. After the plain module has called [next], [req.moltbookAgent] is
    neither [undefined] nor [null], and no response has been sent: a handler
    behind it may read the agent's properties without a check. *)
Theorem plain_continues_only_with_agent
    (process_env : gmap string string) (hs : gmap string header_value)
    (r : fetch_request → exn + response) :
  next_calls (verifyFromRequest (Plain process_env) (fresh hs r)).2 ≠ 0%nat →
  (∃ a, req_moltbookAgent (verifyFromRequest (Plain process_env) (fresh hs r)).2 = Some a ∧
        is_nullish a = false) ∧
  res_sent (verifyFromRequest (Plain process_env) (fresh hs r)).2 = [].
Proof.
  run; repeat (split_on_scrutinee; cbn); intros Hnext; try done.
  repeat match goal with
         | H : get_field ?a f_name = Return _ |- _ =>
             destruct (is_nullish a) eqn:Hn;
             [ destruct a as [|[]|]; try discriminate Hn; discriminate H | clear H ]
         end.
  split; [|done]. eexists. split; [reflexivity|]. congruence.
Qed.

Lemma plain_continues_only_with_agent_witness :
  res_sent
    (verifyFromRequest (Plain {[ "MOLTBOOK_APP_KEY" := "moltdev_key" ]})
       (fresh {[ "x-moltbook-identity" := HString "tok123" ]}
          (replies (JObj [("valid", JBool true); ("agent", JObj [("name", JStr "Bot")])])))).2
  = [].
Proof.
  apply (plain_continues_only_with_agent
           {[ "MOLTBOOK_APP_KEY" := "moltdev_key" ]}
           {[ "x-moltbook-identity" := HString "tok123" ]}
           (replies (JObj [("valid", JBool true); ("agent", JObj [("name", JStr "Bot")])]))).
  vm_compute. discriminate.
Defined.

(** X10. The class does not check the agent. Whenever the body has a true
    [valid] and an agent that is [undefined], [null], or one whose name and
    karma the log line can print, it attaches [data.agent] as it is and
    calls [next]; no response is sent. *)
Theorem class_continues_with_any_agent
    (config : MoltbookAuthMiddleware.MoltbookAuthConfig)
    (hs : gmap string header_value) (data : json) (valid A : value) :
  truthy (header_to_value (hs !! header_name (Typed config))) = true →
  ¬ unset (configured_credential (Typed config)) →
  get_field data f_valid = Return valid →
  truthy valid = true →
  get_field data f_agent = Return A →
  is_nullish A = true ∨ loggable A →
  (verifyFromRequest (Typed config) (fresh hs (replies data))).1 = Return () ∧
  req_moltbookAgent (verifyFromRequest (Typed config) (fresh hs (replies data))).2 = Some A ∧
  next_calls (verifyFromRequest (Typed config) (fresh hs (replies data))).2 = 1%nat ∧
  res_sent (verifyFromRequest (Typed config) (fresh hs (replies data))).2 = [].
Proof.
  intros Htok Hcred%configured_truthy Hvalid Hv Hagent Hlog.
  simpl in Htok, Hcred. run. rewrite headers_get_truthy by done.
  rewrite Htok, Hcred. cbn.
  destruct (first_token_defined _ Htok) as [t ->]. cbn.
  rewrite Hvalid, Hv. cbn. rewrite Hagent. cbn.
  destruct (is_nullish A) eqn:HA; cbn; [done|].
  destruct Hlog as [|(name & karma & Hname & [name' Hname'] & Hkarma & [karma' Hkarma'])];
    [done|].
  rewrite Hname. cbn. rewrite Hname'. cbn. rewrite Hkarma. cbn. rewrite Hkarma'. cbn.
  done.
Qed.

Lemma class_continues_with_any_agent_witness :
  req_moltbookAgent
    (verifyFromRequest (Typed (config_of_env {[ "MOLTBOOK_APP_KEY" := "moltdev_key" ]}))
       (fresh {[ "x-moltbook-identity" := HString "tok123" ]}
          (replies (JObj [("valid", JBool true)])))).2
  = Some VUndefined.
Proof.
  apply (class_continues_with_any_agent
           (config_of_env {[ "MOLTBOOK_APP_KEY" := "moltdev_key" ]})
           {[ "x-moltbook-identity" := HString "tok123" ]}
           (JObj [("valid", JBool true)]) (VJson (JBool true)) VUndefined).
  - reflexivity.
  - intros [H|H]; vm_compute in H; discriminate H.
  - vm_compute. reflexivity.
  - reflexivity.
  - vm_compute. reflexivity.
  - left. reflexivity.
Defined.

(** X11. The plain module, given a body with a true [valid] but an agent
    that is [undefined] or [null], has already stored that value in
    [req.moltbookAgent] when the log line fails on it; it answers 500 and
    does not call [next]. *)
Theorem plain_fails_on_missing_agent
    (process_env : gmap string string)
    (hs : gmap string header_value) (data : json) (valid A : value) :
  truthy (header_to_value (hs !! "x-moltbook-identity")) = true →
  ¬ unset (process_env !! "MOLTBOOK_APP_KEY") →
  get_field data f_valid = Return valid →
  truthy valid = true →
  get_field data f_agent = Return A →
  is_nullish A = true →
  (verifyMoltbookIdentity process_env (fresh hs (replies data))).1 = Return () ∧
  res_sent (verifyMoltbookIdentity process_env (fresh hs (replies data))).2
    = [(num 500, verification_failure_body)] ∧
  req_moltbookAgent (verifyMoltbookIdentity process_env (fresh hs (replies data))).2 = Some A ∧
  next_calls (verifyMoltbookIdentity process_env (fresh hs (replies data))).2 = 0%nat.
Proof.
  intros Htok Hcred%configured_truthy Hvalid Hv Hagent HA.
  run. rewrite headers_get_plain. unfold MOLTBOOK_APP_KEY. rewrite Htok, Hcred. cbn.
  rewrite Hvalid, Hv. cbn. rewrite Hagent. cbn.
  destruct A as [|[]|]; try discriminate HA; done.
Qed.

Lemma plain_fails_on_missing_agent_witness :
  req_moltbookAgent
    (verifyMoltbookIdentity {[ "MOLTBOOK_APP_KEY" := "moltdev_key" ]}
       (fresh {[ "x-moltbook-identity" := HString "tok123" ]}
          (replies (JObj [("valid", JBool true)])))).2
  = Some VUndefined.
Proof.
  apply (plain_fails_on_missing_agent
           {[ "MOLTBOOK_APP_KEY" := "moltdev_key" ]}
           {[ "x-moltbook-identity" := HString "tok123" ]}
           (JObj [("valid", JBool true)]) (VJson (JBool true)) VUndefined).
  - reflexivity.
  - intros [H|H]; vm_compute in H; discriminate H.
  - vm_compute. reflexivity.
  - reflexivity.
  - vm_compute. reflexivity.
  - reflexivity.
Defined.

(** X23. An agent the log line cannot print. When the body has a true
    [valid] and an agent that is an object whose name or karma cannot be
    converted to a string, both implementations have already stored the
    agent in [req.moltbookAgent] when the log line throws; they answer 500
    and do not call [next]. *)
Theorem unprintable_agent_gives_500
    (v : verifier) (hs : gmap string header_value) (data : json) (valid A : value) :
  truthy (header_to_value (hs !! header_name v)) = true →
  ¬ unset (configured_credential v) →
  get_field data f_valid = Return valid →
  truthy valid = true →
  get_field data f_agent = Return A →
  is_nullish A = false →
  ¬ loggable A →
  (verifyFromRequest v (fresh hs (replies data))).1 = Return () ∧
  res_sent (verifyFromRequest v (fresh hs (replies data))).2
    = [(num 500, verification_failure_body)] ∧
  req_moltbookAgent (verifyFromRequest v (fresh hs (replies data))).2 = Some A ∧
  next_calls (verifyFromRequest v (fresh hs (replies data))).2 = 0%nat.
Proof.
  intros Htok Hcred%configured_truthy Hvalid Hv Hagent HA Hlog.
  destruct (get_field_defined A f_name HA) as [name Hname].
  destruct (get_field_defined A f_karma HA) as [karma Hkarma].
  destruct (to_string name) as [name'|e1] eqn:Hname';
    [destruct (to_string karma) as [karma'|e2] eqn:Hkarma'|].
  { destruct Hlog. exists name, karma. unfold printable. eauto 10. }
  all: destruct v as [env|config]; simpl in Htok, Hcred; run;
    rewrite headers_get_truthy by done;
    unfold MOLTBOOK_APP_KEY; rewrite Htok, Hcred; cbn;
    try (destruct (first_token_defined _ Htok) as [t ->]; cbn);
    rewrite Hvalid, Hv; cbn; rewrite Hagent; cbn; rewrite ?HA; cbn;
    rewrite Hname; cbn; rewrite Hname'; cbn;
    rewrite ?Hkarma; cbn; rewrite ?Hkarma'; cbn; done.
Qed.

Lemma unprintable_agent_gives_500_witness :
  req_moltbookAgent
    (verifyFromRequest (Typed (config_of_env {[ "MOLTBOOK_APP_KEY" := "moltdev_key" ]}))
       (fresh {[ "x-moltbook-identity" := HString "tok123" ]}
          (replies (JObj [("valid", JBool true);
                          ("agent", JObj [("name", JStr "Bot");
                                          ("karma", JObj [("toString", JNum 0)])])])))).2
  = Some (VJson (JObj [("name", JStr "Bot"); ("karma", JObj [("toString", JNum 0)])])).
Proof.
  apply (unprintable_agent_gives_500
           (Typed (config_of_env {[ "MOLTBOOK_APP_KEY" := "moltdev_key" ]}))
           {[ "x-moltbook-identity" := HString "tok123" ]}
           (JObj [("valid", JBool true);
                  ("agent", JObj [("name", JStr "Bot");
                                  ("karma", JObj [("toString", JNum 0)])])])
           (VJson (JBool true))
           (VJson (JObj [("name", JStr "Bot"); ("karma", JObj [("toString", JNum 0)])]))).
  - reflexivity.
  - intros [H|H]; vm_compute in H; discriminate H.
  - vm_compute. reflexivity.
  - reflexivity.
  - vm_compute. reflexivity.
  - reflexivity.
  - intros (name & karma & Hname & _ & Hkarma & [s Hs]).
    vm_compute in Hkarma. injection Hkarma as <-.
    vm_compute in Hs. discriminate Hs.
Defined.

(** ** Responses *)

Lemma status_cases (e status : value) :
  getStatusCodeForError e = Return status →
  status ∈ error_statuses ∨ ∃ b, status = VBuiltin b.
Proof.
  unfold getStatusCodeForError, literal_get, error_statuses.
  destruct (to_string e) as [k|err]; simpl; [|done].
  intros [= <-]. unfold object_get, js_or.
  destruct (statusMap !! k) as [x|] eqn:Hs.
  - apply statusMap_rows in Hs as [Hx _]. left.
    repeat (apply elem_of_cons in Hx as [->|Hx]; [simpl; set_solver|]).
    by apply not_elem_of_nil in Hx.
  - destruct (Object_prototype !! k) as [x|] eqn:Hp; simpl.
    + apply Object_prototype_rows in Hp as [b ->]. simpl. eauto.
    + left. set_solver.
Qed.

Lemma hint_truthy (e hint : value) :
  getErrorHint e = Return hint → truthy hint = true.
Proof.
  unfold getErrorHint, literal_get.
  destruct (to_string e) as [k|err]; simpl; [|done].
  intros [= <-]. unfold js_or. by destruct (truthy (object_get id hints k)) eqn:H.
Qed.

(** X12. Whatever the request and the remote, a response sent by the
    request-interception entry point is an error response: its status is one
    of 401, 403, 404, 429 and 500, or an inherited built-in, never a success
    status; its body is an [error] followed by a [hint], and the hint is
    never empty or missing. *)
Theorem responses_are_errors
    (v : verifier) (hs : gmap string header_value) (r : fetch_request → exn + response)
    (status : value) (body : list (string * value)) :
  (status, body) ∈ res_sent (verifyFromRequest v (fresh hs r)).2 →
  (status ∈ error_statuses ∨ ∃ b, status = VBuiltin b) ∧
  ∃ e h, body = [("error", e); ("hint", h)] ∧ truthy h = true.
Proof.
  unfold error_statuses.
  destruct v as [env|config]; run; repeat (split_on_scrutinee; cbn);
    intros Hin;
    try (by apply not_elem_of_nil in Hin);
    apply list_elem_of_singleton in Hin; injection Hin as -> ->;
    (split; [first [eapply status_cases; eassumption | left; set_solver]
            | eexists _, _; split;
              [reflexivity | first [eapply hint_truthy; eassumption | reflexivity]]]).
Qed.

Lemma responses_are_errors_witness :
  ∃ e h, missing_token_body "Include X-Moltbook-Identity header with your identity token"
         = [("error", e); ("hint", h)] ∧ truthy h = true.
Proof.
  apply (responses_are_errors (Plain ∅) ∅ (replies JNull) (num 401)).
  vm_compute. apply list_elem_of_here.
Defined.

(** ** The class against the plain module *)

(** X13. Configured as in its usage example, from the same environment, the
    class's [verifyToken] is the plain module's [verifyIdentityToken]: the
    same request, the same result or rejection, the same effects. *)
Theorem standalone_forms_coincide
    (process_env : gmap string string) (token : string) (w : world) :
  verifyStandalone (Typed (config_of_env process_env)) token w
  = verifyStandalone (Plain process_env) token w.
Proof. reflexivity. Qed.

(** X14. Configured as in its usage example, from the same environment, the
    class's middleware runs exactly as the plain module's on every request
    whose token header is a non-empty string, unless the remote declares the
    token valid without naming an agent. *)
Theorem middlewares_coincide
    (process_env : gmap string string) (token : string)
    (hs : gmap string header_value) (r : fetch_request → exn + response) :
  hs !! "x-moltbook-identity" = Some (HString token) →
  token ≠ "" →
  (∀ data valid A,
     raw_reply (r (outbound (Plain process_env) (str token))) = Return (VJson data) →
     get_field data f_valid = Return valid → truthy valid = true →
     get_field data f_agent = Return A → is_nullish A = false) →
  verifyFromRequest (Typed (config_of_env process_env)) (fresh hs r)
  = verifyFromRequest (Plain process_env) (fresh hs r).
Proof.
  intros Hhdr Hne Hagent.
  assert (Htok : String.eqb token "" = false).
  { by destruct (String.eqb_spec token ""). }
  unfold raw_reply in Hagent.
  set (q := outbound (Plain process_env) (str token)) in *.
  run. unfold MOLTBOOK_APP_KEY in *.
  rewrite !headers_get_plain, Hhdr. cbn. rewrite Htok. cbn.
  destruct (truthy (of_option (process_env !! "MOLTBOOK_APP_KEY"))); cbn;
    [|reflexivity].
  rewrite first_token_string. cbn.
  repeat match goal with
         | |- context [r ?q'] => progress change (r q') with (r q)
         end.
  destruct (r q) as [e|[[e|data]]]; cbn; try reflexivity.
  specialize (Hagent data).
  destruct (get_field data f_valid) as [valid|e] eqn:Hvalid; cbn; [|reflexivity].
  destruct (truthy valid) eqn:Hv; cbn; [|reflexivity].
  destruct (get_field data f_agent) as [A|e] eqn:HA; cbn; [|reflexivity].
  rewrite (Hagent valid A) by done. reflexivity.
Qed.

Lemma middlewares_coincide_witness :
  verifyFromRequest (Typed (config_of_env {[ "MOLTBOOK_APP_KEY" := "moltdev_key" ]}))
    (fresh {[ "x-moltbook-identity" := HString "tok123" ]}
       (replies (JObj [("valid", JBool false); ("error", JStr "invalid_token")])))
  = verifyFromRequest (Plain {[ "MOLTBOOK_APP_KEY" := "moltdev_key" ]})
      (fresh {[ "x-moltbook-identity" := HString "tok123" ]}
         (replies (JObj [("valid", JBool false); ("error", JStr "invalid_token")]))).
Proof.
  apply (middlewares_coincide {[ "MOLTBOOK_APP_KEY" := "moltdev_key" ]} "tok123").
  - reflexivity.
  - discriminate.
  - intros data valid A [= <-] Hvalid Hv. vm_compute in Hvalid.
    injection Hvalid as <-. discriminate Hv.
Defined.

(** ** Callers *)

Ltac run_callers :=
  unfold testEnvironmentConfig, testMiddlewareWithMockToken, testMissingToken,
    optionalMoltbookAuth, verifyBot, console_warn, jsonData_prop;
  unfold_entry_points;
  cbv [mbind M_bind fmap M_fmap mret M_ret throw try_catch lift get
       req_header assign_moltbookAgent res_status res_json next
       console_log console_error fetch response_json
       mock read_statusCode read_jsonData read_nextCalled read_moltbookAgent];
  cbn.

(** X15. [optionalMoltbookAuth] verifies nothing. Whatever the request, it
    calls [next] once, sends no response and makes no call to the remote; a
    request without token continues with [req.moltbookAgent] set to [null],
    a request with a token continues with no agent attached at all. *)
Theorem optional_auth_never_verifies
    (hs : gmap string header_value) (r : fetch_request → exn + response) :
  (optionalMoltbookAuth (fresh hs r)).1 = Return () ∧
  next_calls (optionalMoltbookAuth (fresh hs r)).2 = 1%nat ∧
  res_sent (optionalMoltbookAuth (fresh hs r)).2 = [] ∧
  fetched (optionalMoltbookAuth (fresh hs r)).2 = [] ∧
  req_moltbookAgent (optionalMoltbookAuth (fresh hs r)).2
  = if truthy (header_to_value (hs !! "x-moltbook-identity"))
    then None else Some (VJson JNull).
Proof.
  run_callers. rewrite headers_get_plain. by destruct (truthy (header_to_value _)).
Qed.


(** X17. The missing-token diagnostic passes in every environment and
    against every remote, and makes no call to the remote. *)
Theorem testMissingToken_passes
    (process_env : gmap string string) (inspect : value → string) (w : world) :
  (testMissingToken process_env inspect w).1 = Return true ∧
  fetched (testMissingToken process_env inspect w).2 = fetched w.
Proof.
  run_callers. rewrite headers_get_plain. done.
Qed.

(** X18. The configuration diagnostic never raises, and it passes exactly
    when the middleware is able to call the remote for a request that
    carries a token: the prefix of the key and the audience only change what
    is logged. *)
Theorem testEnvironmentConfig_agrees_with_guard
    (process_env : gmap string string) (inspect : value → string) (w : world) :
  (∃ b, (testEnvironmentConfig process_env inspect w).1 = Return b) ∧
  ((testEnvironmentConfig process_env inspect w).1 = Return true ↔
   ∀ hs r, truthy (header_to_value (hs !! "x-moltbook-identity")) = true →
           fetched (verifyMoltbookIdentity process_env (fresh hs r)).2 ≠ []).
Proof.
  assert (Hrun : (testEnvironmentConfig process_env inspect w).1
                 = Return (truthy (of_option (process_env !! "MOLTBOOK_APP_KEY")))).
  { run_callers.
    destruct (truthy (of_option (process_env !! "MOLTBOOK_APP_KEY"))); cbn; [|done].
    destruct (negb (String.prefix _ _)); cbn;
      destruct (negb (truthy (of_option (process_env !! "MOLTBOOK_AUDIENCE")))); cbn; done. }
  rewrite Hrun. split; [eauto|]. split.
  - intros [= Hkey] hs r Htok.
    change (fetched (verifyFromRequest (Plain process_env) (fresh hs r)).2 ≠ []).
    rewrite interception_fetched. simpl.
    by rewrite headers_get_plain, Htok, Hkey.
  - intros H.
    specialize (H {[ "x-moltbook-identity" := HString "token" ]} (replies JNull) eq_refl).
    change (verifyMoltbookIdentity process_env)
      with (verifyFromRequest (Plain process_env)) in H.
    rewrite interception_fetched in H. simpl in H.
    destruct (truthy (of_option (process_env !! "MOLTBOOK_APP_KEY"))); [done|].
    by rewrite andb_false_r in H.
Qed.

Lemma truthy_not_nullish (v : value) : truthy v = true → is_nullish v = false.
Proof. by destruct v as [|[]|]. Qed.

(** X19. The mock-token diagnostic reports a failure exactly when the
    middleware, handed that token by a host, answers with a response instead
    of continuing. *)
Theorem testMiddlewareWithMockToken_verdict
    (process_env : gmap string string) (inspect : value → string)
    (inspect_object : list (string * value) → string) (mockToken : string) (w : world) :
  (testMiddlewareWithMockToken process_env inspect inspect_object mockToken w).1
    = Return false ↔
  res_sent (verifyMoltbookIdentity process_env
              (fresh {[ "x-moltbook-identity" := HString mockToken ]} (remote w))).2 ≠ [].
Proof.
  run_callers. rewrite !headers_get_plain, !lookup_singleton_eq. cbn.
  repeat (split_on_scrutinee; cbn); split; intros H; done.
Qed.

(** X20. The mock-token diagnostic itself fails on an agent without owner:
    when the remote verifies the token with an agent whose name and karma
    can be printed and whose [owner] is missing or [null], the middleware
    continues, and the diagnostic then rejects with a [TypeError] on
    [owner.x_handle] instead of reporting success. *)
Theorem testMiddlewareWithMockToken_needs_owner
    (process_env : gmap string string) (inspect : value → string)
    (inspect_object : list (string * value) → string) (mockToken : string) (w : world)
    (data : json) (valid A owner : value) :
  mockToken ≠ "" →
  ¬ unset (process_env !! "MOLTBOOK_APP_KEY") →
  remote w = replies data →
  get_field data f_valid = Return valid →
  truthy valid = true →
  get_field data f_agent = Return A →
  truthy A = true →
  loggable A →
  get_agent_field A a_owner = Return owner →
  is_nullish owner = true →
  (∃ message,
     (testMiddlewareWithMockToken process_env inspect inspect_object mockToken w).1
     = Throw (JsError "TypeError" message)) ∧
  next_calls (testMiddlewareWithMockToken process_env inspect inspect_object mockToken w).2
    = 1%nat.
Proof.
  intros Hne Hcred%configured_truthy Hremote Hvalid Hv Hagent HA
    (name & karma & Hname & [name' Hname'] & Hkarma & [karma' Hkarma']) Howner Hnull.
  assert (Htok : String.eqb mockToken "" = false).
  { by destruct (String.eqb_spec mockToken ""). }
  run_callers. rewrite !headers_get_plain, !lookup_singleton_eq. cbn.
  unfold MOLTBOOK_APP_KEY. rewrite Htok, Hcred, Hremote. cbn.
  rewrite Hvalid, Hv. cbn. rewrite Hagent. cbn.
  rewrite Hname. cbn. rewrite Hname'. cbn. rewrite Hkarma. cbn. rewrite Hkarma'. cbn.
  rewrite HA. cbn. rewrite Hname, Hkarma. cbn. rewrite Howner. cbn.
  destruct owner as [|[]|]; try discriminate Hnull; cbn; eauto.
Qed.

Lemma testMiddlewareWithMockToken_needs_owner_witness :
  next_calls
    (testMiddlewareWithMockToken {[ "MOLTBOOK_APP_KEY" := "moltdev_key" ]}
       (λ _, "<value>") (λ _, "{}") "tok123"
       (fresh ∅ (replies (JObj [("valid", JBool true);
                                ("agent", JObj [("name", JStr "Bot");
                                                ("karma", JNum 420)])])))).2
  = 1%nat.
Proof.
  apply (testMiddlewareWithMockToken_needs_owner
           {[ "MOLTBOOK_APP_KEY" := "moltdev_key" ]} (λ _, "<value>") (λ _, "{}") "tok123"
           (fresh ∅ (replies (JObj [("valid", JBool true);
                                    ("agent", JObj [("name", JStr "Bot");
                                                    ("karma", JNum 420)])])))
           (JObj [("valid", JBool true);
                  ("agent", JObj [("name", JStr "Bot"); ("karma", JNum 420)])])
           (VJson (JBool true))
           (VJson (JObj [("name", JStr "Bot"); ("karma", JNum 420)]))
           VUndefined).
  - discriminate.
  - intros [H|H]; vm_compute in H; discriminate H.
  - reflexivity.
  - vm_compute. reflexivity.
  - reflexivity.
  - vm_compute. reflexivity.
  - reflexivity.
  - exists (str "Bot"), (num 420). repeat split; try (vm_compute; reflexivity).
    + exists "Bot". vm_compute. reflexivity.
    + exists "420". vm_compute. reflexivity.
  - vm_compute. reflexivity.
  - reflexivity.
Defined.
